(** * skyline::service::timesrv — the time service core

    A shallow embedding of [services/timesrv/timesrv.h], [timesrv.cpp],
    [results.h] and [common/uuid.h]: the value types, the steady and system
    clock cores, the shared-memory publish routine and the context writers,
    followed by the properties established about them. *)

From Stdlib Require Import ZArith List Bool Lia String Sorted.
Import ListNotations.
Open Scope Z_scope.

(** ** Fixed-width integers

    Machine integers are carried as [Z]; every operation that the C++ code
    performs in a fixed width is followed by the corresponding reduction. *)

Definition to_u32 (z : Z) : Z := z mod 2 ^ 32.
Definition to_i64 (z : Z) : Z := (z + 2 ^ 63) mod 2 ^ 64 - 2 ^ 63.
Definition to_u64 (z : Z) : Z := z mod 2 ^ 64.

(** Modelled from the spec: [constant::NsInSecond] and [constant::NsInDay]
    are declared in [common.h], which is not among the sources.  A Duration
    is a nanosecond count, so a second is 10^9 of them.  The constants are
    unsigned 64-bit values: [FromSeconds] and [FromDays] have to cast their
    product back with [static_cast<i64>], which a signed constant would not
    need. *)
Module constant.
Definition NsInSecond : Z := 1000000000.
Definition NsInDay : Z := 86400 * NsInSecond.
(** [constant::TimeSharedMemorySize], timesrv.cpp *)
Definition TimeSharedMemorySize : Z := 0x1000.
End constant.

(** ** Value types *)

(** [struct TimeSpanType]: a signed 64-bit count of nanoseconds. *)
Module TimeSpanType.
Record t : Type := mk { ns : Z }.

(** [constexpr TimeSpanType() {}] with [i64 ns{}] *)
Definition zero : t := mk 0.

Definition FromNanoseconds (n : Z) : t := mk n.
(** The product is formed modulo 2^64 and cast to [i64]. *)
Definition FromSeconds (s : Z) : t := mk (to_i64 (s * constant.NsInSecond)).
Definition FromDays (d : Z) : t := mk (to_i64 (d * constant.NsInDay)).
Definition Nanoseconds (x : t) : Z := ns x.
(** [ns / constant::NsInSecond]: the constant being unsigned, [ns] is
    converted to unsigned 64 bits and the division is an unsigned one; its
    quotient is converted to the [i64] that is returned. *)
Definition Seconds (x : t) : Z := to_i64 (to_u64 (ns x) / constant.NsInSecond).

Definition gt (lhs rhs : t) : bool := ns rhs <? ns lhs.
Definition lt (lhs rhs : t) : bool := ns lhs <? ns rhs.
Definition add (lhs rhs : t) : t := FromNanoseconds (to_i64 (ns lhs + ns rhs)).
Definition sub (lhs rhs : t) : t := FromNanoseconds (to_i64 (ns lhs - ns rhs)).
End TimeSpanType.

(** [struct UUID], common/uuid.h: [u128 raw{}]. *)
Module UUID.
Record t : Type := mk { raw : Z }.

(** [UUID{}]: the nil identifier. *)
Definition nil : t := mk 0.

Definition Valid (u : t) : bool := negb (raw u =? 0).
Definition eqb (u other : t) : bool := raw u =? raw other.
End UUID.

(** [struct SteadyClockTimePoint]: seconds and the clock source. *)
Module SteadyClockTimePoint.
Record t : Type := mk { timePoint : Z; clockSourceId : UUID.t }.

Definition zero : t := mk 0 UUID.nil.

(** [operator== = default]: member-wise. *)
Definition eqb (a other : t) : bool :=
  (timePoint a =? timePoint other) && UUID.eqb (clockSourceId a) (clockSourceId other).
End SteadyClockTimePoint.

(** [struct SystemClockContext] *)
Module SystemClockContext.
Record t : Type := mk { steadyTimePoint : SteadyClockTimePoint.t; offset : Z }.

Definition zero : t := mk SteadyClockTimePoint.zero 0.

Definition eqb (a other : t) : bool :=
  SteadyClockTimePoint.eqb (steadyTimePoint a) (steadyTimePoint other)
  && (offset a =? offset other).
End SystemClockContext.

(** ** Results

    Modelled from the spec: [Result] and [ResultValue] are declared in
    [common.h], which is not among the sources.  Recoverable errors are
    explicit result values carrying either a success payload or an error
    indicator; a [Result] is a (module, id) pair, [Result{}] is success, and
    a [Result] tests true exactly when it is a failure. *)
Module Result.
Record t : Type := mk { module : Z; code : Z }.

Definition Success : t := mk 0 0.
Definition failed (r : t) : bool := negb ((module r =? 0) && (code r =? 0)).
End Result.

Inductive ResultValue (A : Type) : Type :=
| Value (v : A)
| Error (r : Result.t).
Arguments Value {A} v.
Arguments Error {A} r.

(** [explicit operator bool]: a value is present. *)
Definition has_value {A} (r : ResultValue A) : bool :=
  match r with Value _ => true | Error _ => false end.

(** results.h *)
Module result.
Definition Unimplemented : Result.t := Result.mk 116 990.
End result.

(** ** Object state (namespace [core])

    One record per class, with the data members the class declares.  The
    mutexes are not represented: the model is sequential, every method runs
    to completion before the next one starts. *)

(** [class StandardSteadyClockCore] *)
Module StandardSteadyClockCore.
Record t : Type := mk {
  testOffset : TimeSpanType.t;
  internalOffset : TimeSpanType.t;
  rtcOffset : TimeSpanType.t;
  cachedValue : TimeSpanType.t;
  id : UUID.t
}.

(** The implicit default constructor: every member is [{}]-initialised. *)
Definition new : t :=
  mk TimeSpanType.zero TimeSpanType.zero TimeSpanType.zero TimeSpanType.zero UUID.nil.

Definition with_testOffset (v : TimeSpanType.t) (s : t) : t :=
  mk v (internalOffset s) (rtcOffset s) (cachedValue s) (id s).
Definition with_internalOffset (v : TimeSpanType.t) (s : t) : t :=
  mk (testOffset s) v (rtcOffset s) (cachedValue s) (id s).
Definition with_cachedValue (v : TimeSpanType.t) (s : t) : t :=
  mk (testOffset s) (internalOffset s) (rtcOffset s) v (id s).
End StandardSteadyClockCore.

(** [class TickBasedSteadyClockCore] *)
Module TickBasedSteadyClockCore.
Record t : Type := mk { id : UUID.t }.

Definition new : t := mk UUID.nil.
End TickBasedSteadyClockCore.

(** A [SteadyClockCore &]: the two steady clocks the service owns. *)
Inductive SteadyClockRef : Type := StandardSteadyClock | TickBasedSteadyClock.

(** [class SystemClockCore].  [contextWriter] is a [void *] that no method
    reads or writes and is left out. *)
Module SystemClockCore.
Record t : Type := mk {
  steadyClock : SteadyClockRef;
  initialised : bool;
  context : SystemClockContext.t
}.

(** [SystemClockCore(SteadyClockCore &steadyClock)] *)
Definition new (steadyClock : SteadyClockRef) : t :=
  mk steadyClock false SystemClockContext.zero.

Definition with_context (v : SystemClockContext.t) (s : t) : t :=
  mk (steadyClock s) (initialised s) v.
End SystemClockCore.

(** [class StandardNetworkSystemClockCore : public SystemClockCore] *)
Module StandardNetworkSystemClockCore.
Record t : Type := mk {
  base : SystemClockCore.t;
  sufficientAccuracy : TimeSpanType.t
}.

Definition new (steadyClock : SteadyClockRef) : t :=
  mk (SystemClockCore.new steadyClock) (TimeSpanType.FromDays 10).

Definition with_base (v : SystemClockCore.t) (s : t) : t :=
  mk v (sufficientAccuracy s).
End StandardNetworkSystemClockCore.

(** [class StandardUserSystemClockCore : public SystemClockCore].  The
    references to the local and the network clock are the service's own
    [localSystemClock] and [networkSystemClock]; [automaticCorrectionEvent]
    is a kernel event no method touches. *)
Module StandardUserSystemClockCore.
Record t : Type := mk {
  base : SystemClockCore.t;
  automaticCorrectionEnabled : bool;
  automaticCorrectionUpdatedTime : SteadyClockTimePoint.t
}.

Definition new : t :=
  mk (SystemClockCore.new StandardSteadyClock) false SteadyClockTimePoint.zero.

Definition with_base (v : SystemClockCore.t) (s : t) : t :=
  mk v (automaticCorrectionEnabled s) (automaticCorrectionUpdatedTime s).
End StandardUserSystemClockCore.

(** [std::array<T, 2>]; [at] throws [std::out_of_range] outside 0 and 1. *)
Module Array2.
Record t (T : Type) : Type := mk { at0 : T; at1 : T }.
Arguments mk {T} at0 at1.
Arguments at0 {T} _.
Arguments at1 {T} _.

Definition get {T} (a : t T) (i : Z) : option T :=
  if i =? 0 then Some (at0 a) else if i =? 1 then Some (at1 a) else None.

Definition set {T} (a : t T) (i : Z) (v : T) : option (t T) :=
  if i =? 0 then Some (mk v (at1 a))
  else if i =? 1 then Some (mk (at0 a) v)
  else None.
End Array2.

(** [TimeSharedMemoryLayout::SystemClockContextEntry] *)
Module SystemClockContextEntry.
Record t : Type := mk {
  updateCount : Z;
  context : Array2.t SystemClockContext.t
}.

Definition zero : t :=
  mk 0 (Array2.mk SystemClockContext.zero SystemClockContext.zero).
End SystemClockContextEntry.

(** The anonymous [automaticCorrectionEnabledEntry] *)
Module AutomaticCorrectionEnabledEntry.
Record t : Type := mk { updateCount : Z; automaticCorrectionEnabled : Z }.

Definition zero : t := mk 0 0.
End AutomaticCorrectionEnabledEntry.

(** [struct TimeSharedMemoryLayout]: the fields that the code addresses.
    The 0x38 bytes of [_tmp_] are never accessed and carry no state here;
    they are part of the layout description further down. *)
Module TimeSharedMemoryLayout.
Record t : Type := mk {
  localSystemClockContextEntry : SystemClockContextEntry.t;
  networkSystemClockContextEntry : SystemClockContextEntry.t;
  automaticCorrectionEnabledEntry : AutomaticCorrectionEnabledEntry.t
}.

Definition zero : t :=
  mk SystemClockContextEntry.zero SystemClockContextEntry.zero
     AutomaticCorrectionEnabledEntry.zero.
End TimeSharedMemoryLayout.

(** A [std::shared_ptr<kernel::type::KEvent>]: the handle of a kernel event,
    an external object that can be signalled. *)
Definition KEvent : Type := nat.

(** [class SystemClockContextUpdateCallback] *)
Module SystemClockContextUpdateCallback.
Record t : Type := mk {
  operationEventList : list KEvent;
  context : option SystemClockContext.t
}.

Definition new : t := mk [] None.

Definition with_context (v : option SystemClockContext.t) (s : t) : t :=
  mk (operationEventList s) v.
End SystemClockContextUpdateCallback.

(** [class TimeService], the composition root: all objects of the graph. *)
Module TimeService.
Record t : Type := mk {
  standardSteadyClock : StandardSteadyClockCore.t;
  tickBasedSteadyClock : TickBasedSteadyClockCore.t;
  localSystemClock : SystemClockCore.t;
  networkSystemClock : StandardNetworkSystemClockCore.t;
  userSystemClock : StandardUserSystemClockCore.t;
  empheralNetworkClock : SystemClockCore.t;
  timeSharedMemory : TimeSharedMemoryLayout.t;
  localSystemClockContextWriter : SystemClockContextUpdateCallback.t;
  networkSystemClockContextWriter : SystemClockContextUpdateCallback.t;
  ephemeralNetworkSystemClockContextWriter : SystemClockContextUpdateCallback.t
}.

(** [TimeService(const DeviceState &state)] *)
Definition new : t :=
  mk StandardSteadyClockCore.new
     TickBasedSteadyClockCore.new
     (SystemClockCore.new StandardSteadyClock)
     (StandardNetworkSystemClockCore.new StandardSteadyClock)
     StandardUserSystemClockCore.new
     (SystemClockCore.new TickBasedSteadyClock)
     TimeSharedMemoryLayout.zero
     SystemClockContextUpdateCallback.new
     SystemClockContextUpdateCallback.new
     SystemClockContextUpdateCallback.new.

Definition with_standardSteadyClock (v : StandardSteadyClockCore.t) (s : t) : t :=
  mk v (tickBasedSteadyClock s) (localSystemClock s) (networkSystemClock s)
     (userSystemClock s) (empheralNetworkClock s) (timeSharedMemory s)
     (localSystemClockContextWriter s) (networkSystemClockContextWriter s)
     (ephemeralNetworkSystemClockContextWriter s).
Definition with_localSystemClock (v : SystemClockCore.t) (s : t) : t :=
  mk (standardSteadyClock s) (tickBasedSteadyClock s) v (networkSystemClock s)
     (userSystemClock s) (empheralNetworkClock s) (timeSharedMemory s)
     (localSystemClockContextWriter s) (networkSystemClockContextWriter s)
     (ephemeralNetworkSystemClockContextWriter s).
Definition with_networkSystemClock (v : StandardNetworkSystemClockCore.t) (s : t) : t :=
  mk (standardSteadyClock s) (tickBasedSteadyClock s) (localSystemClock s) v
     (userSystemClock s) (empheralNetworkClock s) (timeSharedMemory s)
     (localSystemClockContextWriter s) (networkSystemClockContextWriter s)
     (ephemeralNetworkSystemClockContextWriter s).
Definition with_userSystemClock (v : StandardUserSystemClockCore.t) (s : t) : t :=
  mk (standardSteadyClock s) (tickBasedSteadyClock s) (localSystemClock s)
     (networkSystemClock s) v (empheralNetworkClock s) (timeSharedMemory s)
     (localSystemClockContextWriter s) (networkSystemClockContextWriter s)
     (ephemeralNetworkSystemClockContextWriter s).
Definition with_empheralNetworkClock (v : SystemClockCore.t) (s : t) : t :=
  mk (standardSteadyClock s) (tickBasedSteadyClock s) (localSystemClock s)
     (networkSystemClock s) (userSystemClock s) v (timeSharedMemory s)
     (localSystemClockContextWriter s) (networkSystemClockContextWriter s)
     (ephemeralNetworkSystemClockContextWriter s).
Definition with_timeSharedMemory (v : TimeSharedMemoryLayout.t) (s : t) : t :=
  mk (standardSteadyClock s) (tickBasedSteadyClock s) (localSystemClock s)
     (networkSystemClock s) (userSystemClock s) (empheralNetworkClock s) v
     (localSystemClockContextWriter s) (networkSystemClockContextWriter s)
     (ephemeralNetworkSystemClockContextWriter s).
Definition with_localSystemClockContextWriter
    (v : SystemClockContextUpdateCallback.t) (s : t) : t :=
  mk (standardSteadyClock s) (tickBasedSteadyClock s) (localSystemClock s)
     (networkSystemClock s) (userSystemClock s) (empheralNetworkClock s)
     (timeSharedMemory s) v (networkSystemClockContextWriter s)
     (ephemeralNetworkSystemClockContextWriter s).
Definition with_networkSystemClockContextWriter
    (v : SystemClockContextUpdateCallback.t) (s : t) : t :=
  mk (standardSteadyClock s) (tickBasedSteadyClock s) (localSystemClock s)
     (networkSystemClock s) (userSystemClock s) (empheralNetworkClock s)
     (timeSharedMemory s) (localSystemClockContextWriter s) v
     (ephemeralNetworkSystemClockContextWriter s).
Definition with_ephemeralNetworkSystemClockContextWriter
    (v : SystemClockContextUpdateCallback.t) (s : t) : t :=
  mk (standardSteadyClock s) (tickBasedSteadyClock s) (localSystemClock s)
     (networkSystemClock s) (userSystemClock s) (empheralNetworkClock s)
     (timeSharedMemory s) (localSystemClockContextWriter s)
     (networkSystemClockContextWriter s) v.
End TimeService.


(** ** The world and its observable events *)

(** The four system clocks of the service. *)
Inductive SystemClockRef : Type :=
| LocalSystemClock | NetworkSystemClock | UserSystemClock | EmpheralNetworkClock.

Inductive Method : Type := mIsClockSetup | mGetClockContext | mSetClockContext.

(** The two context channels of the shared memory. *)
Inductive Channel : Type := LocalChannel | NetworkChannel.

(** What a run of the code does to its surroundings, in program order: a read
    of the monotonic source, the entry into a method of a system clock, a
    store into a slot or a counter of the shared memory, the barrier
    instruction, and the signalling of a kernel event. *)
Inductive Event : Type :=
| EGetTimeNs
| ECall (c : SystemClockRef) (m : Method)
| EStoreItem (ch : Channel) (index : Z) (v : SystemClockContext.t)
| EDMB_ISHST
| EStoreUpdateCount (ch : Channel) (n : Z)
| ESignal (ev : KEvent).

(** The service together with the external monotonic source: [timeNs k] is
    the value that the [k]-th call of [util::GetTimeNs] returns, [reads]
    counts the calls made so far. *)
Record World : Type := mkWorld {
  service : TimeService.t;
  timeNs : nat -> Z;
  reads : nat;
  trace : list Event
}.

Definition with_service (f : TimeService.t -> TimeService.t) (w : World) : World :=
  mkWorld (f (service w)) (timeNs w) (reads w) (trace w).

(** ** Computations: state and C++ exceptions *)

(** A computation returns, throws, or runs into undefined behaviour; in the
    last case the world is the one reached at that point and nothing that
    would follow is described. *)
Inductive Outcome (A : Type) : Type :=
| Normal (a : A)
| Thrown (what : string)
| Undefined (what : string).
Arguments Normal {A} a.
Arguments Thrown {A} what.
Arguments Undefined {A} what.

Definition M (A : Type) : Type := World -> Outcome A * World.

Definition ret {A} (a : A) : M A := fun w => (Normal a, w).

Definition bind {A B} (m : M A) (k : A -> M B) : M B :=
  fun w =>
    match m w with
    | (Normal a, w') => k a w'
    | (Thrown e, w') => (Thrown e, w')
    | (Undefined e, w') => (Undefined e, w')
    end.

Definition throw {A} (what : string) : M A := fun w => (Thrown what, w).

Definition undefined {A} (what : string) : M A := fun w => (Undefined what, w).

Declare Scope monad_scope.
Delimit Scope monad_scope with monad.
Notation "x <- m ;; k" := (bind m (fun x => k))
  (at level 61, m at next level, right associativity) : monad_scope.
Notation "m ;; k" := (bind m (fun _ => k))
  (at level 61, right associativity) : monad_scope.
Open Scope monad_scope.

Definition gets {A} (f : TimeService.t -> A) : M A :=
  fun w => (Normal (f (service w)), w).

Definition modify (f : TimeService.t -> TimeService.t) : M unit :=
  fun w => (Normal tt, with_service f w).

Definition emit (e : Event) : M unit :=
  fun w => (Normal tt, mkWorld (service w) (timeNs w) (reads w) (trace w ++ [e])).

(** [util::GetTimeNs()], the external monotonic source. *)
Definition GetTimeNs : M Z :=
  fun w => (Normal (timeNs w (reads w)),
            mkWorld (service w) (timeNs w) (S (reads w)) (trace w ++ [EGetTimeNs])).

(** ** Steady clocks *)

(** [StandardSteadyClockCore::GetRawTimePoint] *)
Definition StandardSteadyClockCore_GetRawTimePoint : M TimeSpanType.t :=
  now <- GetTimeNs ;;
  self <- gets TimeService.standardSteadyClock ;;
  let timePoint :=
    TimeSpanType.add (TimeSpanType.FromNanoseconds (to_i64 now))
                     (StandardSteadyClockCore.rtcOffset self) in
  (if TimeSpanType.gt timePoint (StandardSteadyClockCore.cachedValue self)
   then modify (fun s => TimeService.with_standardSteadyClock
                  (StandardSteadyClockCore.with_cachedValue timePoint
                     (TimeService.standardSteadyClock s)) s)
   else ret tt) ;;
  ret timePoint.

(** [StandardSteadyClockCore::GetTimePoint] *)
Definition StandardSteadyClockCore_GetTimePoint : M (ResultValue SteadyClockTimePoint.t) :=
  raw <- StandardSteadyClockCore_GetRawTimePoint ;;
  self <- gets TimeService.standardSteadyClock ;;
  ret (Value (SteadyClockTimePoint.mk (TimeSpanType.Seconds raw)
                                      (StandardSteadyClockCore.id self))).

(** [TickBasedSteadyClockCore::GetTimePoint] *)
Definition TickBasedSteadyClockCore_GetTimePoint : M (ResultValue SteadyClockTimePoint.t) :=
  now <- GetTimeNs ;;
  self <- gets TimeService.tickBasedSteadyClock ;;
  ret (Value (SteadyClockTimePoint.mk
                (TimeSpanType.Seconds (TimeSpanType.FromNanoseconds (to_i64 now)))
                (TickBasedSteadyClockCore.id self))).

(** The pure virtual [SteadyClockCore::GetTimePoint], dispatched. *)
Definition GetTimePoint (c : SteadyClockRef) : M (ResultValue SteadyClockTimePoint.t) :=
  match c with
  | StandardSteadyClock => StandardSteadyClockCore_GetTimePoint
  | TickBasedSteadyClock => TickBasedSteadyClockCore_GetTimePoint
  end.

(** [SteadyClockCore::GetRawTimePoint], the base implementation, on the
    object [c]. *)
Definition SteadyClockCore_GetRawTimePoint (c : SteadyClockRef) : M TimeSpanType.t :=
  timePoint <- GetTimePoint c ;;
  match timePoint with
  | Value tp => ret (TimeSpanType.FromSeconds (SteadyClockTimePoint.timePoint tp))
  | Error _ => throw "Error reading timepoint"
  end.

(** The virtual [GetRawTimePoint]: overridden by the standard clock only. *)
Definition GetRawTimePoint (c : SteadyClockRef) : M TimeSpanType.t :=
  match c with
  | StandardSteadyClock => StandardSteadyClockCore_GetRawTimePoint
  | TickBasedSteadyClock => SteadyClockCore_GetRawTimePoint TickBasedSteadyClock
  end.

(** The virtual [GetTestOffset] and [GetInternalOffset]: the base returns
    [{}], the standard clock its members. *)
Definition GetTestOffset (c : SteadyClockRef) : M TimeSpanType.t :=
  match c with
  | StandardSteadyClock =>
      self <- gets TimeService.standardSteadyClock ;;
      ret (StandardSteadyClockCore.testOffset self)
  | TickBasedSteadyClock => ret TimeSpanType.zero
  end.

Definition GetInternalOffset (c : SteadyClockRef) : M TimeSpanType.t :=
  match c with
  | StandardSteadyClock =>
      self <- gets TimeService.standardSteadyClock ;;
      ret (StandardSteadyClockCore.internalOffset self)
  | TickBasedSteadyClock => ret TimeSpanType.zero
  end.

(** The virtual [SetTestOffset] and [SetInternalOffset]: no effect in the
    base. *)
Definition SetTestOffset (c : SteadyClockRef) (offset : TimeSpanType.t) : M unit :=
  match c with
  | StandardSteadyClock =>
      modify (fun s => TimeService.with_standardSteadyClock
                (StandardSteadyClockCore.with_testOffset offset
                   (TimeService.standardSteadyClock s)) s)
  | TickBasedSteadyClock => ret tt
  end.

Definition SetInternalOffset (c : SteadyClockRef) (offset : TimeSpanType.t) : M unit :=
  match c with
  | StandardSteadyClock =>
      modify (fun s => TimeService.with_standardSteadyClock
                (StandardSteadyClockCore.with_internalOffset offset
                   (TimeService.standardSteadyClock s)) s)
  | TickBasedSteadyClock => ret tt
  end.

(** [SteadyClockCore::GetRtcValue] and [GetSetupResult], not overridden. *)
Definition GetRtcValue (c : SteadyClockRef) : M (ResultValue TimeSpanType.t) :=
  ret (Error result.Unimplemented).

Definition GetSetupResult (c : SteadyClockRef) : M Result.t :=
  ret Result.Success.

(** [SteadyClockCore::GetCurrentTimePoint] *)
Definition GetCurrentTimePoint (c : SteadyClockRef) : M (ResultValue SteadyClockTimePoint.t) :=
  timePoint <- GetTimePoint c ;;
  match timePoint with
  | Value tp =>
      testOffset <- GetTestOffset c ;;
      internalOffset <- GetInternalOffset c ;;
      ret (Value (SteadyClockTimePoint.mk
                    (to_i64 (SteadyClockTimePoint.timePoint tp
                             + TimeSpanType.Seconds (TimeSpanType.add testOffset internalOffset)))
                    (SteadyClockTimePoint.clockSourceId tp)))
  | Error r => ret (Error r)
  end.

(** ** System clocks *)

(** The [SystemClockCore] subobject of each of the four clocks. *)
Definition systemClock (c : SystemClockRef) (s : TimeService.t) : SystemClockCore.t :=
  match c with
  | LocalSystemClock => TimeService.localSystemClock s
  | NetworkSystemClock => StandardNetworkSystemClockCore.base (TimeService.networkSystemClock s)
  | UserSystemClock => StandardUserSystemClockCore.base (TimeService.userSystemClock s)
  | EmpheralNetworkClock => TimeService.empheralNetworkClock s
  end.

Definition with_systemClock (c : SystemClockRef) (v : SystemClockCore.t)
    (s : TimeService.t) : TimeService.t :=
  match c with
  | LocalSystemClock => TimeService.with_localSystemClock v s
  | NetworkSystemClock =>
      TimeService.with_networkSystemClock
        (StandardNetworkSystemClockCore.with_base v (TimeService.networkSystemClock s)) s
  | UserSystemClock =>
      TimeService.with_userSystemClock
        (StandardUserSystemClockCore.with_base v (TimeService.userSystemClock s)) s
  | EmpheralNetworkClock => TimeService.with_empheralNetworkClock v s
  end.

(** [SystemClockCore::GetClockContext], the base implementation, on [c]. *)
Definition SystemClockCore_GetClockContext (c : SystemClockRef)
    : M (ResultValue SystemClockContext.t) :=
  emit (ECall c mGetClockContext) ;;
  self <- gets (systemClock c) ;;
  ret (Value (SystemClockCore.context self)).

(** [SystemClockCore::SetClockContext], the base implementation, on [c]. *)
Definition SystemClockCore_SetClockContext (c : SystemClockRef)
    (pContext : SystemClockContext.t) : M Result.t :=
  emit (ECall c mSetClockContext) ;;
  modify (fun s => with_systemClock c
            (SystemClockCore.with_context pContext (systemClock c s)) s) ;;
  ret Result.Success.

(** [SystemClockCore::IsClockSetup] on [c]; the virtual [GetClockContext] of
    the object is passed in as [getClockContext]. *)
Definition SystemClockCore_IsClockSetup (c : SystemClockRef)
    (getClockContext : M (ResultValue SystemClockContext.t)) : M bool :=
  emit (ECall c mIsClockSetup) ;;
  ctx <- getClockContext ;;
  if has_value ctx then
    self <- gets (systemClock c) ;;
    timePoint <- GetCurrentTimePoint (SystemClockCore.steadyClock self) ;;
    match timePoint with
    | Value tp => ret (UUID.Valid (SteadyClockTimePoint.clockSourceId tp))
    | Error _ => ret false
    end
  else ret false.

(** [StandardUserSystemClockCore::GetClockContext].  [&&] evaluates its
    right operand only when the left one is true. *)
Definition StandardUserSystemClockCore_GetClockContext
    : M (ResultValue SystemClockContext.t) :=
  emit (ECall UserSystemClock mGetClockContext) ;;
  self <- gets TimeService.userSystemClock ;;
  cond <- (if StandardUserSystemClockCore.automaticCorrectionEnabled self
           then SystemClockCore_IsClockSetup NetworkSystemClock
                  (SystemClockCore_GetClockContext NetworkSystemClock)
           else ret false) ;;
  if (cond : bool) then
    ctx <- SystemClockCore_GetClockContext NetworkSystemClock ;;
    match ctx with
    | Error r => ret (Error r)
    | Value c =>
        r <- SystemClockCore_SetClockContext LocalSystemClock c ;;
        if Result.failed r then ret (Error r)
        else SystemClockCore_GetClockContext LocalSystemClock
    end
  else SystemClockCore_GetClockContext LocalSystemClock.

(** [StandardUserSystemClockCore::SetClockContext] *)
Definition StandardUserSystemClockCore_SetClockContext
    (pContext : SystemClockContext.t) : M Result.t :=
  emit (ECall UserSystemClock mSetClockContext) ;;
  ret result.Unimplemented.

(** The virtual [GetClockContext] and [SetClockContext], dispatched on the
    dynamic type of the clock. *)
Definition GetClockContext (c : SystemClockRef) : M (ResultValue SystemClockContext.t) :=
  match c with
  | UserSystemClock => StandardUserSystemClockCore_GetClockContext
  | _ => SystemClockCore_GetClockContext c
  end.

Definition SetClockContext (c : SystemClockRef) (pContext : SystemClockContext.t)
    : M Result.t :=
  match c with
  | UserSystemClock => StandardUserSystemClockCore_SetClockContext pContext
  | _ => SystemClockCore_SetClockContext c pContext
  end.

(** [c.IsClockSetup()] *)
Definition IsClockSetup (c : SystemClockRef) : M bool :=
  SystemClockCore_IsClockSetup c (GetClockContext c).

(** ** Shared memory *)

Definition entry (ch : Channel) (s : TimeService.t) : SystemClockContextEntry.t :=
  match ch with
  | LocalChannel =>
      TimeSharedMemoryLayout.localSystemClockContextEntry (TimeService.timeSharedMemory s)
  | NetworkChannel =>
      TimeSharedMemoryLayout.networkSystemClockContextEntry (TimeService.timeSharedMemory s)
  end.

Definition with_entry (ch : Channel) (v : SystemClockContextEntry.t)
    (s : TimeService.t) : TimeService.t :=
  let m := TimeService.timeSharedMemory s in
  TimeService.with_timeSharedMemory
    (match ch with
     | LocalChannel =>
         TimeSharedMemoryLayout.mk v
           (TimeSharedMemoryLayout.networkSystemClockContextEntry m)
           (TimeSharedMemoryLayout.automaticCorrectionEnabledEntry m)
     | NetworkChannel =>
         TimeSharedMemoryLayout.mk
           (TimeSharedMemoryLayout.localSystemClockContextEntry m) v
           (TimeSharedMemoryLayout.automaticCorrectionEnabledEntry m)
     end) s.

(** [UpdateTimeSharedMemoryItem(updateCount, item, newValue)], where
    [updateCount] and [item] are the two members of the entry [ch]. *)
Definition UpdateTimeSharedMemoryItem (ch : Channel) (newValue : SystemClockContext.t)
    : M unit :=
  e <- gets (entry ch) ;;
  let newCount := to_u32 (SystemClockContextEntry.updateCount e + 1) in
  match Array2.set (SystemClockContextEntry.context e) (Z.land newCount 1) newValue with
  | None => throw "std::out_of_range"
  | Some item =>
      modify (with_entry ch
                (SystemClockContextEntry.mk (SystemClockContextEntry.updateCount e) item)) ;;
      emit (EStoreItem ch (Z.land newCount 1) newValue) ;;
      emit EDMB_ISHST ;;
      modify (with_entry ch (SystemClockContextEntry.mk newCount item)) ;;
      emit (EStoreUpdateCount ch newCount)
  end.

(** [TimeSharedMemory::UpdateLocalSystemClockContext] *)
Definition UpdateLocalSystemClockContext (context : SystemClockContext.t) : M unit :=
  UpdateTimeSharedMemoryItem LocalChannel context.

(** [TimeSharedMemory::UpdateNetworkSystemClockContext] *)
Definition UpdateNetworkSystemClockContext (context : SystemClockContext.t) : M unit :=
  UpdateTimeSharedMemoryItem NetworkChannel context.

(** ** Context writers *)

Inductive WriterRef : Type := LocalWriter | NetworkWriter | EphemeralWriter.

Definition writer (wr : WriterRef) (s : TimeService.t) : SystemClockContextUpdateCallback.t :=
  match wr with
  | LocalWriter => TimeService.localSystemClockContextWriter s
  | NetworkWriter => TimeService.networkSystemClockContextWriter s
  | EphemeralWriter => TimeService.ephemeralNetworkSystemClockContextWriter s
  end.

Definition with_writer (wr : WriterRef) (v : SystemClockContextUpdateCallback.t)
    (s : TimeService.t) : TimeService.t :=
  match wr with
  | LocalWriter => TimeService.with_localSystemClockContextWriter v s
  | NetworkWriter => TimeService.with_networkSystemClockContextWriter v s
  | EphemeralWriter => TimeService.with_ephemeralNetworkSystemClockContextWriter v s
  end.

(** [std::optional<T>::operator bool] and [optional == value]. *)
Definition optional_has_value {A} (o : option A) : bool :=
  match o with Some _ => true | None => false end.

Definition optional_eq_value (o : option SystemClockContext.t)
    (v : SystemClockContext.t) : bool :=
  match o with Some c => SystemClockContext.eqb c v | None => false end.

(** [SystemClockContextUpdateCallback::UpdateBaseContext] on the writer [wr] *)
Definition UpdateBaseContext (wr : WriterRef) (newContext : SystemClockContext.t) : M bool :=
  self <- gets (writer wr) ;;
  if optional_has_value (SystemClockContextUpdateCallback.context self)
     && optional_eq_value (SystemClockContextUpdateCallback.context self) newContext
  then ret false
  else
    modify (fun s => with_writer wr
              (SystemClockContextUpdateCallback.with_context (Some newContext) (writer wr s))
              s) ;;
    ret true.

(** The loop of [SignalOperationEvent]: [event->Signal()] for each event. *)
Fixpoint Signal_each (operationEventList : list KEvent) : M unit :=
  match operationEventList with
  | [] => ret tt
  | event :: rest => emit (ESignal event) ;; Signal_each rest
  end.

(** [SystemClockContextUpdateCallback::SignalOperationEvent] on [wr] *)
Definition SignalOperationEvent (wr : WriterRef) : M unit :=
  self <- gets (writer wr) ;;
  Signal_each (SystemClockContextUpdateCallback.operationEventList self).

(** Control reaching the closing brace of a function that returns a
    [Result]. *)
Definition missing_return : M Result.t :=
  undefined "control reaches the end of a non-void function".

(** The three [UpdateContext] overrides.  Each returns [{}] on the early
    exit; on the other path control reaches the closing brace without a
    [return], which is undefined behaviour. *)
Definition LocalSystemClockContextWriter_UpdateContext
    (newContext : SystemClockContext.t) : M Result.t :=
  updated <- UpdateBaseContext LocalWriter newContext ;;
  if negb updated then ret Result.Success
  else
    UpdateLocalSystemClockContext newContext ;;
    SignalOperationEvent LocalWriter ;;
    missing_return.

Definition NetworkSystemClockContextWriter_UpdateContext
    (newContext : SystemClockContext.t) : M Result.t :=
  updated <- UpdateBaseContext NetworkWriter newContext ;;
  if negb updated then ret Result.Success
  else
    UpdateNetworkSystemClockContext newContext ;;
    SignalOperationEvent NetworkWriter ;;
    missing_return.

Definition EphemeralNetworkSystemClockContextWriter_UpdateContext
    (newContext : SystemClockContext.t) : M Result.t :=
  updated <- UpdateBaseContext EphemeralWriter newContext ;;
  if negb updated then ret Result.Success
  else
    SignalOperationEvent EphemeralWriter ;;
    missing_return.

(** The pure virtual [UpdateContext], dispatched. *)
Definition UpdateContext (wr : WriterRef) (newContext : SystemClockContext.t)
    : M Result.t :=
  match wr with
  | LocalWriter => LocalSystemClockContextWriter_UpdateContext newContext
  | NetworkWriter => NetworkSystemClockContextWriter_UpdateContext newContext
  | EphemeralWriter => EphemeralNetworkSystemClockContextWriter_UpdateContext newContext
  end.

(** ** Binary layout

    The struct declarations of timesrv.h and timesrv.cpp as data, and the
    layout rule the compiler applies to them: a member is placed at the next
    multiple of its alignment, a struct is aligned like its strictest member
    and padded to a multiple of that, and [__attribute__((packed))] reduces
    the alignment of the struct and of its members to 1. *)

#[warnings="-register-all"]
Inductive ctype : Type :=
| Tu8 | Tu32 | Ti64 | Tu64 | Tu128
| Tarray (elem : ctype) (n : Z)
| Tstruct (packed : bool) (members : list (string * ctype)).

Definition round_up (x a : Z) : Z := (x + a - 1) / a * a.

Fixpoint alignof (t : ctype) : Z :=
  match t with
  | Tu8 => 1
  | Tu32 => 4
  | Ti64 | Tu64 => 8
  | Tu128 => 16
  | Tarray elem _ => alignof elem
  | Tstruct packed members =>
      if packed then 1
      else (fix strictest (ms : list (string * ctype)) : Z :=
              match ms with
              | [] => 1
              | (_, m) :: rest => Z.max (alignof m) (strictest rest)
              end) members
  end.

Definition member_align (packed : bool) (m : ctype) : Z :=
  if packed then 1 else alignof m.

Fixpoint sizeof (t : ctype) : Z :=
  match t with
  | Tu8 => 1
  | Tu32 => 4
  | Ti64 | Tu64 => 8
  | Tu128 => 16
  | Tarray elem n => n * sizeof elem
  | Tstruct packed members =>
      round_up
        ((fix place (off : Z) (ms : list (string * ctype)) : Z :=
            match ms with
            | [] => off
            | (_, m) :: rest =>
                place (round_up off (member_align packed m) + sizeof m) rest
            end) 0 members)
        (alignof (Tstruct packed members))
  end.

Fixpoint member_offset (packed : bool) (off : Z) (ms : list (string * ctype))
    (name : string) : option Z :=
  match ms with
  | [] => None
  | (n, m) :: rest =>
      let o := round_up off (member_align packed m) in
      if String.eqb n name then Some o
      else member_offset packed (o + sizeof m) rest name
  end.

Definition offsetof (t : ctype) (name : string) : option Z :=
  match t with
  | Tstruct packed members => member_offset packed 0 members name
  | _ => None
  end.

Fixpoint member_type (ms : list (string * ctype)) (name : string) : option ctype :=
  match ms with
  | [] => None
  | (n, m) :: rest => if String.eqb n name then Some m else member_type rest name
  end.

Definition typeof_member (t : ctype) (name : string) : option ctype :=
  match t with
  | Tstruct _ members => member_type members name
  | _ => None
  end.

Module Layout.
Open Scope string_scope.

Definition UUID : ctype := Tstruct false [("raw", Tu128)].

Definition SteadyClockTimePoint : ctype :=
  Tstruct true [("timePoint", Ti64); ("clockSourceId", UUID)].

Definition SystemClockContext : ctype :=
  Tstruct true [("steadyTimePoint", SteadyClockTimePoint); ("offset", Tu64)].

Definition SystemClockContextEntry : ctype :=
  Tstruct false [("updateCount", Tu32); ("_pad_", Tu32);
                 ("context", Tarray SystemClockContext 2)].

Definition AutomaticCorrectionEnabledEntry : ctype :=
  Tstruct true [("updateCount", Tu32); ("automaticCorrectionEnabled", Tu8)].

Definition TimeSharedMemoryLayout : ctype :=
  Tstruct true [("_tmp_", Tarray Tu8 0x38);
                ("localSystemClockContextEntry", SystemClockContextEntry);
                ("networkSystemClockContextEntry", SystemClockContextEntry);
                ("automaticCorrectionEnabledEntry", AutomaticCorrectionEnabledEntry)].
End Layout.

(** ** Runs *)

(** [n] consecutive calls of [m], with their results in order. *)
Fixpoint calls {A} (m : M A) (n : nat) : M (list A) :=
  match n with
  | O => ret []
  | S n' => x <- m ;; xs <- calls m n' ;; ret (x :: xs)
  end.

(** The service as constructed, in front of a given monotonic source. *)
Definition boot (source : nat -> Z) : World := mkWorld TimeService.new source 0 [].

(** The identifier of a steady clock. *)
Definition steadyClock_id (c : SteadyClockRef) (s : TimeService.t) : UUID.t :=
  match c with
  | StandardSteadyClock => StandardSteadyClockCore.id (TimeService.standardSteadyClock s)
  | TickBasedSteadyClock => TickBasedSteadyClockCore.id (TimeService.tickBasedSteadyClock s)
  end.


Definition is_signal (e : Event) : bool :=
  match e with ESignal _ => true | _ => false end.

(** A monotonic source that steps backwards after its first reading. *)
Definition backward_source (k : nat) : Z :=
  match k with O => 5000000000 | S _ => 3000000000 end.

(** The world with further events appended to its trace. *)
Definition logged (es : list Event) (w : World) : World :=
  mkWorld (service w) (timeNs w) (reads w) (trace w ++ es).

(** The value the standard steady clock computes from the next reading of
    the source: the reading plus [rtcOffset]. *)
Definition fresh_raw (w : World) : TimeSpanType.t :=
  TimeSpanType.add (TimeSpanType.FromNanoseconds (to_i64 (timeNs w (reads w))))
    (StandardSteadyClockCore.rtcOffset (TimeService.standardSteadyClock (service w))).

(** The service once the standard steady clock has seen the value [t]: the
    cache keeps the larger of the two. *)
Definition ratchet (t : TimeSpanType.t) (s : TimeService.t) : TimeService.t :=
  if TimeSpanType.gt t (StandardSteadyClockCore.cachedValue (TimeService.standardSteadyClock s))
  then TimeService.with_standardSteadyClock
         (StandardSteadyClockCore.with_cachedValue t (TimeService.standardSteadyClock s)) s
  else s.

(** The world after the steady clock [c] has read the source once. *)
Definition after_read (c : SteadyClockRef) (w : World) : World :=
  mkWorld
    (match c with
     | StandardSteadyClock => ratchet (fresh_raw w) (service w)
     | TickBasedSteadyClock => service w
     end)
    (timeNs w) (S (reads w)) (trace w ++ [EGetTimeNs]).

(** The seconds that [GetTimePoint] of the steady clock [c] reports. *)
Definition seconds_read (c : SteadyClockRef) (w : World) : Z :=
  match c with
  | StandardSteadyClock => TimeSpanType.Seconds (fresh_raw w)
  | TickBasedSteadyClock =>
      TimeSpanType.Seconds (TimeSpanType.FromNanoseconds (to_i64 (timeNs w (reads w))))
  end.

(** The correction that [GetCurrentTimePoint] adds, in seconds. *)
Definition correction (c : SteadyClockRef) (s : TimeService.t) : Z :=
  match c with
  | StandardSteadyClock =>
      TimeSpanType.Seconds
        (TimeSpanType.add
           (StandardSteadyClockCore.testOffset (TimeService.standardSteadyClock s))
           (StandardSteadyClockCore.internalOffset (TimeService.standardSteadyClock s)))
  | TickBasedSteadyClock =>
      TimeSpanType.Seconds (TimeSpanType.add TimeSpanType.zero TimeSpanType.zero)
  end.

(** The steady clock that the system clock [c] refers to. *)
Definition steadyClock_of (c : SystemClockRef) (s : TimeService.t) : SteadyClockRef :=
  SystemClockCore.steadyClock (systemClock c s).

(** The context stored in the system clock [c]. *)
Definition stored_context (c : SystemClockRef) (w : World) : SystemClockContext.t :=
  SystemClockCore.context (systemClock c (service w)).

(** A service whose standard steady clock carries the identifier 1, with
    automatic correction switched on and a context in the network clock. *)
Definition network_context : SystemClockContext.t :=
  SystemClockContext.mk (SteadyClockTimePoint.mk 100 (UUID.mk 1)) 5.

Definition corrected_service : TimeService.t :=
  TimeService.mk
    (StandardSteadyClockCore.mk TimeSpanType.zero TimeSpanType.zero TimeSpanType.zero
       TimeSpanType.zero (UUID.mk 1))
    TickBasedSteadyClockCore.new
    (SystemClockCore.new StandardSteadyClock)
    (StandardNetworkSystemClockCore.mk
       (SystemClockCore.mk StandardSteadyClock false network_context)
       (TimeSpanType.FromDays 10))
    (StandardUserSystemClockCore.mk (SystemClockCore.new StandardSteadyClock) true
       SteadyClockTimePoint.zero)
    (SystemClockCore.new TickBasedSteadyClock)
    TimeSharedMemoryLayout.zero
    SystemClockContextUpdateCallback.new
    SystemClockContextUpdateCallback.new
    SystemClockContextUpdateCallback.new.

Definition corrected_world : World := mkWorld corrected_service (fun _ => 0) 0 [].

(** A service whose local channel has been published into 2^32 - 1 times. *)
Definition saturated_world : World :=
  with_service
    (with_entry LocalChannel
       (SystemClockContextEntry.mk 4294967295
          (Array2.mk SystemClockContext.zero SystemClockContext.zero)))
    (boot backward_source).

(** The stores and the barrier of one publish of [v] into the channel [ch],
    as [UpdateTimeSharedMemoryItem] issues them from the world [w]. *)
Definition store_events (ch : Channel) (v : SystemClockContext.t) (w : World) : list Event :=
  let n := to_u32 (SystemClockContextEntry.updateCount (entry ch (service w)) + 1) in
  [EStoreItem ch (Z.land n 1) v; EDMB_ISHST; EStoreUpdateCount ch n].

(** What the writer [wr] publishes for a new context: the local and the
    network writer into their channel, the ephemeral writer nothing. *)
Definition publish_events (wr : WriterRef) (v : SystemClockContext.t) (w : World)
    : list Event :=
  match wr with
  | LocalWriter => store_events LocalChannel v w
  | NetworkWriter => store_events NetworkChannel v w
  | EphemeralWriter => []
  end.

(** One round of signals to the subscribers of the writer [wr]. *)
Definition signal_events (wr : WriterRef) (w : World) : list Event :=
  map ESignal (SystemClockContextUpdateCallback.operationEventList (writer wr (service w))).

(** The writer [wr] already holds a context equal to [v]. *)
Definition already_stored (wr : WriterRef) (v : SystemClockContext.t) (w : World) : bool :=
  optional_has_value (SystemClockContextUpdateCallback.context (writer wr (service w)))
  && optional_eq_value (SystemClockContextUpdateCallback.context (writer wr (service w))) v.


Definition republished_world : World :=
  with_service
    (with_writer LocalWriter
       (SystemClockContextUpdateCallback.mk [7%nat] (Some network_context)))
    (boot backward_source).

(** ** Sequences of operations *)

(** The value the standard steady clock computes from the [k]-th reading of
    the source. *)
Definition raw_at (w : World) (k : nat) : TimeSpanType.t :=
  TimeSpanType.add (TimeSpanType.FromNanoseconds (to_i64 (timeNs w k)))
    (StandardSteadyClockCore.rtcOffset (TimeService.standardSteadyClock (service w))).

(** The world after [n] reads of the standard steady clock. *)
Fixpoint after_reads (n : nat) (w : World) : World :=
  match n with
  | O => w
  | S n' => after_reads n' (after_read StandardSteadyClock w)
  end.

(** The cache of the standard steady clock, in nanoseconds. *)
Definition cached_ns (w : World) : Z :=
  TimeSpanType.ns (StandardSteadyClockCore.cachedValue
                     (TimeService.standardSteadyClock (service w))).

(** A 64-bit signed value. *)
Definition in_i64 (z : Z) : Prop := - 2 ^ 63 <= z < 2 ^ 63.

(** A source that reads one and a half seconds before zero. *)
Definition negative_source (k : nat) : Z := - 1500000000.

(** A source that counts up in steps of one second. *)
Definition ticking_source (k : nat) : Z := Z.of_nat k * 1000000000.

(** The slot of a channel entry that the parity of its counter selects, and
    the other one. *)
Definition current_slot (e : SystemClockContextEntry.t) : option SystemClockContext.t :=
  Array2.get (SystemClockContextEntry.context e)
             (Z.land (SystemClockContextEntry.updateCount e) 1).

Definition other_slot (e : SystemClockContextEntry.t) : option SystemClockContext.t :=
  Array2.get (SystemClockContextEntry.context e)
             (Z.land (SystemClockContextEntry.updateCount e + 1) 1).

(** The values [vs] published one after the other into the channel [ch]. *)
Fixpoint publish_all (ch : Channel) (vs : list SystemClockContext.t) : M unit :=
  match vs with
  | [] => ret tt
  | v :: rest => UpdateTimeSharedMemoryItem ch v ;; publish_all ch rest
  end.

Definition other_channel (ch : Channel) : Channel :=
  match ch with LocalChannel => NetworkChannel | NetworkChannel => LocalChannel end.

(** The channel that a writer publishes into, if any. *)
Definition channel_of (wr : WriterRef) : option Channel :=
  match wr with
  | LocalWriter => Some LocalChannel
  | NetworkWriter => Some NetworkChannel
  | EphemeralWriter => None
  end.

(** Each writer that holds a context and owns a channel finds that context
    in the current slot of its channel. *)
Definition in_sync (s : TimeService.t) : Prop :=
  forall wr ch v,
    channel_of wr = Some ch ->
    SystemClockContextUpdateCallback.context (writer wr s) = Some v ->
    current_slot (entry ch s) = Some v.

(** The public operations of the objects of the service. *)
Inductive Op : Type :=
| OpGetTimePoint (c : SteadyClockRef)
| OpGetRawTimePoint (c : SteadyClockRef)
| OpGetCurrentTimePoint (c : SteadyClockRef)
| OpGetTestOffset (c : SteadyClockRef)
| OpSetTestOffset (c : SteadyClockRef) (offset : TimeSpanType.t)
| OpGetInternalOffset (c : SteadyClockRef)
| OpSetInternalOffset (c : SteadyClockRef) (offset : TimeSpanType.t)
| OpGetRtcValue (c : SteadyClockRef)
| OpGetSetupResult (c : SteadyClockRef)
| OpIsClockSetup (c : SystemClockRef)
| OpGetClockContext (c : SystemClockRef)
| OpSetClockContext (c : SystemClockRef) (pContext : SystemClockContext.t)
| OpUpdateLocalSystemClockContext (context : SystemClockContext.t)
| OpUpdateNetworkSystemClockContext (context : SystemClockContext.t)
| OpUpdateContext (wr : WriterRef) (newContext : SystemClockContext.t).

Definition is_update (o : Op) : bool :=
  match o with OpUpdateContext _ _ => true | _ => false end.

(** An operation run for its effect. *)
Definition run_op (o : Op) : M unit :=
  match o with
  | OpGetTimePoint c => GetTimePoint c ;; ret tt
  | OpGetRawTimePoint c => GetRawTimePoint c ;; ret tt
  | OpGetCurrentTimePoint c => GetCurrentTimePoint c ;; ret tt
  | OpGetTestOffset c => GetTestOffset c ;; ret tt
  | OpSetTestOffset c offset => SetTestOffset c offset
  | OpGetInternalOffset c => GetInternalOffset c ;; ret tt
  | OpSetInternalOffset c offset => SetInternalOffset c offset
  | OpGetRtcValue c => GetRtcValue c ;; ret tt
  | OpGetSetupResult c => GetSetupResult c ;; ret tt
  | OpIsClockSetup c => IsClockSetup c ;; ret tt
  | OpGetClockContext c => GetClockContext c ;; ret tt
  | OpSetClockContext c pContext => SetClockContext c pContext ;; ret tt
  | OpUpdateLocalSystemClockContext context => UpdateLocalSystemClockContext context
  | OpUpdateNetworkSystemClockContext context => UpdateNetworkSystemClockContext context
  | OpUpdateContext wr newContext => UpdateContext wr newContext ;; ret tt
  end.

Fixpoint run_ops (os : list Op) : M unit :=
  match os with
  | [] => ret tt
  | o :: rest => run_op o ;; run_ops rest
  end.

(** What no operation is written to change: the identifiers and the
    [rtcOffset] of the steady clocks, the steady clock each system clock
    refers to, the [initialised] flags, the accuracy threshold, the
    correction flag and time of the user clock, the flag channel of the
    shared memory and the subscribers of the writers. *)
Record Setup : Type := mkSetup {
  setup_ids : UUID.t * UUID.t;
  setup_rtcOffset : TimeSpanType.t;
  setup_steadyClocks : SteadyClockRef * SteadyClockRef * SteadyClockRef * SteadyClockRef;
  setup_initialised : bool * bool * bool * bool;
  setup_sufficientAccuracy : TimeSpanType.t;
  setup_correction : bool * SteadyClockTimePoint.t;
  setup_flagEntry : AutomaticCorrectionEnabledEntry.t;
  setup_subscribers : list KEvent * list KEvent * list KEvent
}.

Definition setup_of (s : TimeService.t) : Setup :=
  mkSetup
    (steadyClock_id StandardSteadyClock s, steadyClock_id TickBasedSteadyClock s)
    (StandardSteadyClockCore.rtcOffset (TimeService.standardSteadyClock s))
    (steadyClock_of LocalSystemClock s, steadyClock_of NetworkSystemClock s,
     steadyClock_of UserSystemClock s, steadyClock_of EmpheralNetworkClock s)
    (SystemClockCore.initialised (systemClock LocalSystemClock s),
     SystemClockCore.initialised (systemClock NetworkSystemClock s),
     SystemClockCore.initialised (systemClock UserSystemClock s),
     SystemClockCore.initialised (systemClock EmpheralNetworkClock s))
    (StandardNetworkSystemClockCore.sufficientAccuracy (TimeService.networkSystemClock s))
    (StandardUserSystemClockCore.automaticCorrectionEnabled (TimeService.userSystemClock s),
     StandardUserSystemClockCore.automaticCorrectionUpdatedTime (TimeService.userSystemClock s))
    (TimeSharedMemoryLayout.automaticCorrectionEnabledEntry (TimeService.timeSharedMemory s))
    (SystemClockContextUpdateCallback.operationEventList (writer LocalWriter s),
     SystemClockContextUpdateCallback.operationEventList (writer NetworkWriter s),
     SystemClockContextUpdateCallback.operationEventList (writer EphemeralWriter s)).

(** The world after [StandardUserSystemClockCore::GetClockContext]. *)
Definition after_user_GetClockContext (w : World) : World :=
  let w1 := logged [ECall UserSystemClock mGetClockContext] w in
  if StandardUserSystemClockCore.automaticCorrectionEnabled
       (TimeService.userSystemClock (service w))
  then
    let w2 := after_read (steadyClock_of NetworkSystemClock (service w))
                (logged [ECall NetworkSystemClock mGetClockContext]
                   (logged [ECall NetworkSystemClock mIsClockSetup] w1)) in
    if UUID.Valid (steadyClock_id (steadyClock_of NetworkSystemClock (service w)) (service w))
    then
      logged [ECall LocalSystemClock mGetClockContext]
        (with_service
           (fun s => with_systemClock LocalSystemClock
                       (SystemClockCore.with_context (stored_context NetworkSystemClock w)
                          (systemClock LocalSystemClock s)) s)
           (logged [ECall LocalSystemClock mSetClockContext]
              (logged [ECall NetworkSystemClock mGetClockContext] w2)))
    else logged [ECall LocalSystemClock mGetClockContext] w2
  else logged [ECall LocalSystemClock mGetClockContext] w1.

(** The constructed service with automatic correction switched on. *)
Definition enabled_world : World :=
  with_service
    (TimeService.with_userSystemClock
       (StandardUserSystemClockCore.mk (SystemClockCore.new StandardSteadyClock) true
          SteadyClockTimePoint.zero))
    (boot backward_source).

Definition is_user (c : SystemClockRef) : bool :=
  match c with UserSystemClock => true | _ => false end.

(** The signals among the events of a world. *)
Definition signals (w : World) : list Event := filter is_signal (trace w).

(** The service apart from the contents of its shared memory. *)
Definition without_memory (s : TimeService.t) : TimeService.t :=
  TimeService.with_timeSharedMemory TimeSharedMemoryLayout.zero s.

(** No writer has a subscriber. *)
Definition no_subscribers (s : TimeService.t) : Prop :=
  setup_subscribers (setup_of s) = ([], [], []).

(** From [w] to [w'] the setup is kept, and no event has been signalled
    unless a writer has subscribers. *)
Definition keeps_setup (w w' : World) : Prop :=
  setup_of (service w') = setup_of (service w)
  /\ (no_subscribers (service w) -> signals w' = signals w).

(** * Properties *)

(** ** Steady clocks *)

Ltac unfold_monad := unfold bind, ret, throw, gets, modify, emit, with_service.

Ltac ratchet_cases := unfold ratchet; destruct (TimeSpanType.gt _ _); reflexivity.

Lemma ratchet_tickBasedSteadyClock t s :
  TimeService.tickBasedSteadyClock (ratchet t s) = TimeService.tickBasedSteadyClock s.
Proof. ratchet_cases. Qed.

Lemma ratchet_localSystemClock t s :
  TimeService.localSystemClock (ratchet t s) = TimeService.localSystemClock s.
Proof. ratchet_cases. Qed.

Lemma ratchet_networkSystemClock t s :
  TimeService.networkSystemClock (ratchet t s) = TimeService.networkSystemClock s.
Proof. ratchet_cases. Qed.

Lemma ratchet_userSystemClock t s :
  TimeService.userSystemClock (ratchet t s) = TimeService.userSystemClock s.
Proof. ratchet_cases. Qed.

Lemma ratchet_empheralNetworkClock t s :
  TimeService.empheralNetworkClock (ratchet t s) = TimeService.empheralNetworkClock s.
Proof. ratchet_cases. Qed.

Lemma ratchet_id t s :
  StandardSteadyClockCore.id (TimeService.standardSteadyClock (ratchet t s))
  = StandardSteadyClockCore.id (TimeService.standardSteadyClock s).
Proof. ratchet_cases. Qed.

Lemma ratchet_testOffset t s :
  StandardSteadyClockCore.testOffset (TimeService.standardSteadyClock (ratchet t s))
  = StandardSteadyClockCore.testOffset (TimeService.standardSteadyClock s).
Proof. ratchet_cases. Qed.

Lemma ratchet_internalOffset t s :
  StandardSteadyClockCore.internalOffset (TimeService.standardSteadyClock (ratchet t s))
  = StandardSteadyClockCore.internalOffset (TimeService.standardSteadyClock s).
Proof. ratchet_cases. Qed.

Lemma ratchet_rtcOffset t s :
  StandardSteadyClockCore.rtcOffset (TimeService.standardSteadyClock (ratchet t s))
  = StandardSteadyClockCore.rtcOffset (TimeService.standardSteadyClock s).
Proof. ratchet_cases. Qed.

Create Rewrite HintDb frame.
#[export] Hint Rewrite ratchet_tickBasedSteadyClock ratchet_localSystemClock
  ratchet_networkSystemClock ratchet_userSystemClock ratchet_empheralNetworkClock
  ratchet_id ratchet_testOffset ratchet_internalOffset ratchet_rtcOffset : frame.

(** The cache of the standard steady clock does ratchet: it never decreases
    and is at least the value just computed. *)
Lemma ratchet_cachedValue t s :
  let old := TimeSpanType.ns (StandardSteadyClockCore.cachedValue (TimeService.standardSteadyClock s)) in
  let new := TimeSpanType.ns (StandardSteadyClockCore.cachedValue
                                (TimeService.standardSteadyClock (ratchet t s))) in
  new = Z.max old (TimeSpanType.ns t).
Proof.
  unfold ratchet, TimeSpanType.gt.
  destruct (Z.ltb_spec
              (TimeSpanType.ns (StandardSteadyClockCore.cachedValue
                                  (TimeService.standardSteadyClock s)))
              (TimeSpanType.ns t)); cbn; lia.
Qed.

(** [StandardSteadyClockCore::GetRawTimePoint] returns the value it has just
    computed from the source, whatever the cache holds. *)
Lemma StandardSteadyClockCore_GetRawTimePoint_run w :
  StandardSteadyClockCore_GetRawTimePoint w
  = (Normal (fresh_raw w), after_read StandardSteadyClock w).
Proof.
  unfold StandardSteadyClockCore_GetRawTimePoint, GetTimeNs, after_read, ratchet.
  unfold_monad. cbn. fold (fresh_raw w).
  destruct (TimeSpanType.gt _ _); reflexivity.
Qed.

Lemma steadyClock_id_after_read c c' w :
  steadyClock_id c' (service (after_read c w)) = steadyClock_id c' (service w).
Proof.
  destruct c, c'; cbn; autorewrite with frame; reflexivity.
Qed.

Lemma GetTimePoint_run c w :
  GetTimePoint c w
  = (Normal (Value (SteadyClockTimePoint.mk (seconds_read c w)
                      (steadyClock_id c (service w)))),
     after_read c w).
Proof.
  destruct c; cbn.
  - unfold StandardSteadyClockCore_GetTimePoint, bind at 1.
    rewrite StandardSteadyClockCore_GetRawTimePoint_run.
    unfold_monad.
    pose proof (steadyClock_id_after_read StandardSteadyClock StandardSteadyClock w) as H.
    cbn in H |- *. rewrite H. reflexivity.
  - reflexivity.
Qed.

Lemma GetCurrentTimePoint_run c w :
  GetCurrentTimePoint c w
  = (Normal (Value (SteadyClockTimePoint.mk
                      (to_i64 (seconds_read c w + correction c (service w)))
                      (steadyClock_id c (service w)))),
     after_read c w).
Proof.
  unfold GetCurrentTimePoint, bind at 1. rewrite GetTimePoint_run.
  destruct c; unfold_monad; cbn; autorewrite with frame. all: reflexivity.
Qed.

(** C1, on the code: two consecutive calls of
    [StandardSteadyClockCore::GetRawTimePoint] on a freshly constructed
    service, in front of a source that reads 5 s and then 3 s, return 5 s and
    then 3 s.  The second result is smaller than the first, although the
    cache holds 5 s: the function returns the value it has just computed and
    not the cached maximum. *)
Theorem StandardSteadyClockCore_GetRawTimePoint_regresses :
  exists first second w',
    calls StandardSteadyClockCore_GetRawTimePoint 2 (boot backward_source)
    = (Normal [first; second], w')
    /\ first = TimeSpanType.FromNanoseconds 5000000000
    /\ second = TimeSpanType.FromNanoseconds 3000000000
    /\ TimeSpanType.lt second first = true
    /\ StandardSteadyClockCore.cachedValue (TimeService.standardSteadyClock (service w'))
       = TimeSpanType.FromNanoseconds 5000000000.
Proof.
  eexists. eexists. eexists. split; [vm_compute; reflexivity |].
  repeat split.
Qed.

(** Every call of [GetTimePoint] yields a value that carries the identifier
    the clock holds, and no identifier changes. *)
Lemma calls_GetTimePoint_id c u :
  forall n w,
    steadyClock_id c (service w) = u ->
    exists tps w',
      calls (GetTimePoint c) n w = (Normal tps, w')
      /\ Forall (fun r => exists tp, r = Value tp
                          /\ SteadyClockTimePoint.clockSourceId tp = u) tps
      /\ steadyClock_id c (service w') = u.
Proof.
  induction n as [| n IH]; intros w Hid.
  - exists [], w. repeat split; [constructor | exact Hid].
  - destruct (IH (after_read c w)) as (tps & w' & Hrun & Hall & Hid').
    { rewrite steadyClock_id_after_read. exact Hid. }
    eexists. exists w'. cbn [calls]. unfold bind at 1.
    rewrite GetTimePoint_run. unfold bind at 1. rewrite Hrun.
    split; [reflexivity |]. split; [| exact Hid'].
    constructor; [| exact Hall].
    eexists. split; [reflexivity |]. exact Hid.
Qed.

(** C2, on the code: the steady clock of a freshly constructed service holds
    the nil identifier, and the time point it returns carries it. *)
Lemma constructed_clockSourceId_is_nil :
  UUID.Valid (steadyClock_id StandardSteadyClock TimeService.new) = false
  /\ UUID.Valid (steadyClock_id TickBasedSteadyClock TimeService.new) = false
  /\ exists tp w',
       GetTimePoint StandardSteadyClock (boot backward_source) = (Normal (Value tp), w')
       /\ UUID.Valid (SteadyClockTimePoint.clockSourceId tp) = false.
Proof.
  split; [reflexivity |]. split; [reflexivity |].
  eexists. eexists. split; [vm_compute; reflexivity | reflexivity].
Qed.

(** C2, amended: a steady clock core of either kind is constructed with the
    nil (all-zero, invalid) identifier, no random value being generated, and
    no read of the clock changes it: whatever the source, every time point
    that any number of consecutive [GetTimePoint] calls on the constructed
    service returns carries the nil, invalid [clockSourceId]. *)
Theorem constructed_steady_clock_has_nil_id :
  forall (c : SteadyClockRef) (source : nat -> Z) (n : nat),
    steadyClock_id c TimeService.new = UUID.nil
    /\ exists tps w',
         calls (GetTimePoint c) n (boot source) = (Normal tps, w')
         /\ Forall (fun r => exists tp,
                       r = Value tp
                       /\ SteadyClockTimePoint.clockSourceId tp = UUID.nil
                       /\ UUID.Valid (SteadyClockTimePoint.clockSourceId tp) = false) tps
         /\ steadyClock_id c (service w') = UUID.nil.
Proof.
  intros c source n.
  assert (Hnew : steadyClock_id c TimeService.new = UUID.nil) by (destruct c; reflexivity).
  split; [exact Hnew |].
  destruct (calls_GetTimePoint_id c UUID.nil n (boot source) Hnew) as (tps & w' & Hrun & Hall & Hid).
  exists tps, w'. repeat split; try assumption.
  eapply Forall_impl; [| exact Hall].
  intros r (tp & -> & Htp). exists tp. rewrite Htp. repeat split.
Qed.

(** ** System clocks *)

Arguments after_read : simpl never.
Arguments steadyClock_of : simpl never.

Ltac after_read_cases sc :=
  destruct sc; unfold after_read; cbn; autorewrite with frame; reflexivity.

Lemma localSystemClock_after_read sc w :
  TimeService.localSystemClock (service (after_read sc w))
  = TimeService.localSystemClock (service w).
Proof. after_read_cases sc. Qed.

Lemma networkSystemClock_after_read sc w :
  TimeService.networkSystemClock (service (after_read sc w))
  = TimeService.networkSystemClock (service w).
Proof. after_read_cases sc. Qed.

Lemma userSystemClock_after_read sc w :
  TimeService.userSystemClock (service (after_read sc w))
  = TimeService.userSystemClock (service w).
Proof. after_read_cases sc. Qed.

Lemma empheralNetworkClock_after_read sc w :
  TimeService.empheralNetworkClock (service (after_read sc w))
  = TimeService.empheralNetworkClock (service w).
Proof. after_read_cases sc. Qed.

#[export] Hint Rewrite localSystemClock_after_read networkSystemClock_after_read
  userSystemClock_after_read empheralNetworkClock_after_read : frame.

Lemma systemClock_after_read sc c w :
  systemClock c (service (after_read sc w)) = systemClock c (service w).
Proof. destruct c; cbn; autorewrite with frame; reflexivity. Qed.

Lemma systemClock_with_systemClock c v s :
  systemClock c (with_systemClock c v s) = v.
Proof. destruct c; reflexivity. Qed.

Lemma steadyClock_id_with_systemClock sc c v s :
  steadyClock_id sc (with_systemClock c v s) = steadyClock_id sc s.
Proof. destruct sc, c; reflexivity. Qed.

Lemma SystemClockCore_GetClockContext_run c w :
  SystemClockCore_GetClockContext c w
  = (Normal (Value (stored_context c w)), logged [ECall c mGetClockContext] w).
Proof. reflexivity. Qed.

Lemma SystemClockCore_SetClockContext_run c pContext w :
  SystemClockCore_SetClockContext c pContext w
  = (Normal Result.Success,
     with_service
       (fun s => with_systemClock c (SystemClockCore.with_context pContext (systemClock c s)) s)
       (logged [ECall c mSetClockContext] w)).
Proof. reflexivity. Qed.

(** [IsClockSetup] of a clock that does not override [GetClockContext]. *)
Lemma SystemClockCore_IsClockSetup_run c w :
  SystemClockCore_IsClockSetup c (SystemClockCore_GetClockContext c) w
  = (Normal (UUID.Valid (steadyClock_id (steadyClock_of c (service w)) (service w))),
     after_read (steadyClock_of c (service w))
       (logged [ECall c mGetClockContext] (logged [ECall c mIsClockSetup] w))).
Proof.
  unfold SystemClockCore_IsClockSetup.
  unfold bind at 1. cbn [emit]. fold (logged [ECall c mIsClockSetup] w).
  unfold bind at 1. rewrite SystemClockCore_GetClockContext_run. cbn [has_value].
  unfold bind at 1. cbn [gets].
  unfold bind at 1. rewrite GetCurrentTimePoint_run. reflexivity.
Qed.

(** What [StandardUserSystemClockCore::GetClockContext] does, by cases on
    the correction flag and on the identifier of the network clock's steady
    clock. *)
Lemma StandardUserSystemClockCore_GetClockContext_run w :
  let enabled := StandardUserSystemClockCore.automaticCorrectionEnabled
                   (TimeService.userSystemClock (service w)) in
  let setup := UUID.Valid (steadyClock_id (steadyClock_of NetworkSystemClock (service w))
                             (service w)) in
  exists w',
    StandardUserSystemClockCore_GetClockContext w
    = (Normal (Value (if enabled && setup
                      then stored_context NetworkSystemClock w
                      else stored_context LocalSystemClock w)), w')
    /\ (forall sc, steadyClock_id sc (service w') = steadyClock_id sc (service w))
    /\ stored_context LocalSystemClock w'
       = (if enabled && setup then stored_context NetworkSystemClock w
          else stored_context LocalSystemClock w)
    /\ stored_context NetworkSystemClock w' = stored_context NetworkSystemClock w
    /\ systemClock UserSystemClock (service w') = systemClock UserSystemClock (service w).
Proof.
  cbv zeta.
  unfold StandardUserSystemClockCore_GetClockContext.
  unfold bind at 1. cbn [emit].
  fold (logged [ECall UserSystemClock mGetClockContext] w).
  unfold bind at 1. cbn [gets service logged].
  destruct (StandardUserSystemClockCore.automaticCorrectionEnabled _) eqn:Hen; cbn [andb].
  - unfold bind at 1. rewrite SystemClockCore_IsClockSetup_run. cbn [service logged].
    destruct (UUID.Valid _) eqn:Hv.
    + unfold bind at 1. rewrite SystemClockCore_GetClockContext_run.
      unfold bind at 1. rewrite SystemClockCore_SetClockContext_run.
      cbn [Result.failed Result.Success Result.module Result.code Z.eqb andb negb].
      rewrite SystemClockCore_GetClockContext_run.
      unfold stored_context. cbn. autorewrite with frame.
      eexists. split; [reflexivity |]. cbn. autorewrite with frame.
      repeat split.
      intros sc.
      rewrite (steadyClock_id_with_systemClock sc LocalSystemClock).
      rewrite steadyClock_id_after_read. reflexivity.
    + rewrite SystemClockCore_GetClockContext_run.
      unfold stored_context. cbn. autorewrite with frame.
      eexists. split; [reflexivity |]. cbn. autorewrite with frame.
      repeat split.
      intros sc. rewrite steadyClock_id_after_read. reflexivity.
  - unfold bind at 1. cbn [ret].
    rewrite SystemClockCore_GetClockContext_run.
    eexists. split; [reflexivity |]. repeat split.
Qed.

Lemma IsClockSetup_base_run c w :
  c <> UserSystemClock ->
  IsClockSetup c w
  = (Normal (UUID.Valid (steadyClock_id (steadyClock_of c (service w)) (service w))),
     after_read (steadyClock_of c (service w))
       (logged [ECall c mGetClockContext] (logged [ECall c mIsClockSetup] w))).
Proof.
  intros Hc. unfold IsClockSetup.
  destruct c; try congruence; apply SystemClockCore_IsClockSetup_run.
Qed.

(** [GetClockContext] of any of the four clocks returns a value, and leaves
    the identifiers of the steady clocks and the clock's own reference to
    its steady clock as they were. *)
Lemma GetClockContext_succeeds c w :
  exists ctx w',
    GetClockContext c w = (Normal (Value ctx), w')
    /\ (forall sc, steadyClock_id sc (service w') = steadyClock_id sc (service w))
    /\ steadyClock_of c (service w') = steadyClock_of c (service w).
Proof.
  destruct c; cbn [GetClockContext];
    try (rewrite SystemClockCore_GetClockContext_run; eexists; eexists;
         split; [reflexivity |]; split; reflexivity).
  destruct (StandardUserSystemClockCore_GetClockContext_run w)
    as (w' & Hrun & Hid & _ & _ & Huser).
  eexists. exists w'. split; [exact Hrun |]. split; [exact Hid |].
  unfold steadyClock_of. rewrite Huser. reflexivity.
Qed.

(** One run of [IsClockSetup]: the context is obtained, then the current
    time point, and the answer is the validity of its identifier. *)
Lemma IsClockSetup_run c w :
  exists ctx w1,
    GetClockContext c (logged [ECall c mIsClockSetup] w) = (Normal (Value ctx), w1)
    /\ (forall sc, steadyClock_id sc (service w1) = steadyClock_id sc (service w))
    /\ steadyClock_of c (service w1) = steadyClock_of c (service w)
    /\ IsClockSetup c w
       = (Normal (UUID.Valid (steadyClock_id (steadyClock_of c (service w1)) (service w1))),
          after_read (steadyClock_of c (service w1)) w1).
Proof.
  destruct (GetClockContext_succeeds c (logged [ECall c mIsClockSetup] w))
    as (ctx & w1 & Hctx & Hid & Hsc).
  exists ctx, w1. split; [exact Hctx |]. split; [exact Hid |]. split; [exact Hsc |].
  unfold IsClockSetup, SystemClockCore_IsClockSetup.
  unfold bind at 1. cbn [emit]. fold (logged [ECall c mIsClockSetup] w).
  unfold bind at 1. rewrite Hctx. cbn [has_value].
  unfold bind at 1. cbn [gets]. fold (steadyClock_of c (service w1)).
  unfold bind at 1. rewrite GetCurrentTimePoint_run. reflexivity.
Qed.

(** C7: [IsClockSetup] of a system clock returns true exactly when its
    [GetClockContext] returns a value, [GetCurrentTimePoint] of the steady
    clock it refers to then returns a value, and the identifier of that time
    point is valid.  Since both calls always return a value, the answer is
    the validity of the identifier the steady clock holds; in particular it
    is false when that identifier is nil. *)
Theorem IsClockSetup_iff :
  forall (c : SystemClockRef) (w : World),
    (fst (IsClockSetup c w) = Normal true
     <-> exists ctx w1 tp w2,
           GetClockContext c (logged [ECall c mIsClockSetup] w) = (Normal (Value ctx), w1)
           /\ GetCurrentTimePoint (steadyClock_of c (service w1)) w1 = (Normal (Value tp), w2)
           /\ UUID.Valid (SteadyClockTimePoint.clockSourceId tp) = true)
    /\ fst (IsClockSetup c w)
       = Normal (UUID.Valid (steadyClock_id (steadyClock_of c (service w)) (service w)))
    /\ (steadyClock_id (steadyClock_of c (service w)) (service w) = UUID.nil ->
        fst (IsClockSetup c w) = Normal false).
Proof.
  intros c w.
  destruct (IsClockSetup_run c w) as (ctx & w1 & Hctx & Hid & Hsc & Hrun).
  assert (Hclosed : fst (IsClockSetup c w)
                    = Normal (UUID.Valid (steadyClock_id (steadyClock_of c (service w))
                                            (service w)))).
  { rewrite Hrun. cbn [fst]. rewrite Hsc, Hid. reflexivity. }
  split; [| split].
  - split.
    + intros Htrue. rewrite Hrun in Htrue. cbn [fst] in Htrue.
      injection Htrue as Hvalid.
      eexists. exists w1. eexists. eexists.
      split; [exact Hctx |]. split; [apply GetCurrentTimePoint_run |]. exact Hvalid.
    + intros (ctx' & w1' & tp & w2 & Hctx' & Htp & Hvalid).
      rewrite Hctx in Hctx'. injection Hctx' as _ Hw. subst w1'.
      rewrite GetCurrentTimePoint_run in Htp. injection Htp as Htp _. subst tp.
      rewrite Hrun. cbn [fst]. f_equal. exact Hvalid.
  - exact Hclosed.
  - intros Hnil. rewrite Hclosed, Hnil. reflexivity.
Qed.

Lemma IsClockSetup_iff_witness :
  exists ctx w1 tp w2,
    GetClockContext NetworkSystemClock
      (logged [ECall NetworkSystemClock mIsClockSetup] corrected_world)
    = (Normal (Value ctx), w1)
    /\ GetCurrentTimePoint (steadyClock_of NetworkSystemClock (service w1)) w1
       = (Normal (Value tp), w2)
    /\ UUID.Valid (SteadyClockTimePoint.clockSourceId tp) = true.
Proof.
  apply (proj1 (proj1 (IsClockSetup_iff NetworkSystemClock corrected_world))).
  reflexivity.
Defined.

(** C10: [GetTimePoint] of either steady clock returns a value, never an
    error and never an exception, in every world; hence the virtual
    [GetRawTimePoint], the base [SteadyClockCore::GetRawTimePoint] and
    [GetCurrentTimePoint] complete normally with a value, and what
    [IsClockSetup] of any system clock answers is the validity of a time
    point it has obtained: the branches that handle a failed [GetTimePoint]
    (the throw, the forwarded error, the final [return false]) are never
    taken. *)
Theorem GetTimePoint_always_succeeds :
  (forall (c : SteadyClockRef) (w : World),
     (exists tp w', GetTimePoint c w = (Normal (Value tp), w'))
     /\ (exists d w', GetRawTimePoint c w = (Normal d, w'))
     /\ (exists d w', SteadyClockCore_GetRawTimePoint c w = (Normal d, w'))
     /\ (exists tp w', GetCurrentTimePoint c w = (Normal (Value tp), w')))
  /\ (forall (sys : SystemClockRef) (w : World),
        exists ctx w1 tp w2,
          GetClockContext sys (logged [ECall sys mIsClockSetup] w) = (Normal (Value ctx), w1)
          /\ GetCurrentTimePoint (steadyClock_of sys (service w1)) w1
             = (Normal (Value tp), w2)
          /\ IsClockSetup sys w
             = (Normal (UUID.Valid (SteadyClockTimePoint.clockSourceId tp)), w2)).
Proof.
  split.
  - intros c w. split; [| split; [| split]].
    + rewrite GetTimePoint_run. eauto.
    + destruct c; cbn [GetRawTimePoint].
      * rewrite StandardSteadyClockCore_GetRawTimePoint_run. eauto.
      * unfold SteadyClockCore_GetRawTimePoint, bind. rewrite GetTimePoint_run.
        unfold ret. eauto.
    + unfold SteadyClockCore_GetRawTimePoint, bind. rewrite GetTimePoint_run.
      unfold ret. eauto.
    + rewrite GetCurrentTimePoint_run. eauto.
  - intros sys w.
    destruct (IsClockSetup_run sys w) as (ctx & w1 & Hctx & _ & _ & Hrun).
    exists ctx, w1. eexists. eexists.
    split; [exact Hctx |]. split; [apply GetCurrentTimePoint_run |]. exact Hrun.
Qed.

(** C3: with automatic correction enabled and the network clock set up,
    [GetClockContext] of the user clock returns the context [C] stored in the
    network clock and stores it in the local clock, whose [GetClockContext]
    then returns [C]. *)
Theorem user_GetClockContext_propagates_network :
  forall (w : World) (C : SystemClockContext.t),
    StandardUserSystemClockCore.automaticCorrectionEnabled
      (TimeService.userSystemClock (service w)) = true ->
    fst (IsClockSetup NetworkSystemClock w) = Normal true ->
    stored_context NetworkSystemClock w = C ->
    exists w',
      GetClockContext UserSystemClock w = (Normal (Value C), w')
      /\ stored_context LocalSystemClock w' = C
      /\ fst (GetClockContext LocalSystemClock w') = Normal (Value C).
Proof.
  intros w C Hen Hsetup HC.
  rewrite IsClockSetup_base_run in Hsetup by discriminate.
  cbn [fst] in Hsetup. injection Hsetup as Hvalid.
  destruct (StandardUserSystemClockCore_GetClockContext_run w)
    as (w' & Hrun & _ & Hlocal & _).
  rewrite Hen, Hvalid, HC in Hrun, Hlocal. cbn [andb] in Hrun, Hlocal.
  exists w'. split; [exact Hrun |]. split; [exact Hlocal |].
  cbn [GetClockContext]. rewrite SystemClockCore_GetClockContext_run.
  cbn [fst]. rewrite Hlocal. reflexivity.
Qed.

Lemma user_GetClockContext_propagates_network_witness :
  exists w',
    GetClockContext UserSystemClock corrected_world = (Normal (Value network_context), w')
    /\ stored_context LocalSystemClock w' = network_context
    /\ fst (GetClockContext LocalSystemClock w') = Normal (Value network_context).
Proof.
  apply (user_GetClockContext_propagates_network corrected_world network_context);
    reflexivity.
Defined.

(** C4: with automatic correction disabled, [GetClockContext] of the user
    clock returns the context stored in the local clock; the service is left
    as it was, the source is not read, and the only calls made are the entry
    into the user clock's [GetClockContext] and into the local clock's: no
    method of the network clock is entered. *)
Theorem user_GetClockContext_correction_disabled :
  forall (w : World),
    StandardUserSystemClockCore.automaticCorrectionEnabled
      (TimeService.userSystemClock (service w)) = false ->
    exists w',
      GetClockContext UserSystemClock w
      = (Normal (Value (stored_context LocalSystemClock w)), w')
      /\ service w' = service w
      /\ reads w' = reads w
      /\ trace w' = trace w ++ [ECall UserSystemClock mGetClockContext;
                                ECall LocalSystemClock mGetClockContext]
      /\ stored_context LocalSystemClock w' = stored_context LocalSystemClock w
      /\ stored_context NetworkSystemClock w' = stored_context NetworkSystemClock w.
Proof.
  intros w Hdis.
  cbn [GetClockContext]. unfold StandardUserSystemClockCore_GetClockContext.
  unfold bind at 1. cbn [emit].
  unfold bind at 1. cbn [gets service]. rewrite Hdis.
  unfold bind at 1. cbn [ret].
  rewrite SystemClockCore_GetClockContext_run.
  eexists. split; [reflexivity |].
  cbn. rewrite <- app_assoc. repeat split.
Qed.

Lemma user_GetClockContext_correction_disabled_witness :
  exists w',
    GetClockContext UserSystemClock (boot backward_source)
    = (Normal (Value (stored_context LocalSystemClock (boot backward_source))), w')
    /\ service w' = service (boot backward_source)
    /\ reads w' = reads (boot backward_source)
    /\ trace w' = trace (boot backward_source)
                  ++ [ECall UserSystemClock mGetClockContext;
                      ECall LocalSystemClock mGetClockContext]
    /\ stored_context LocalSystemClock w' = stored_context LocalSystemClock (boot backward_source)
    /\ stored_context NetworkSystemClock w'
       = stored_context NetworkSystemClock (boot backward_source).
Proof.
  apply (user_GetClockContext_correction_disabled (boot backward_source)).
  reflexivity.
Defined.

(** C9: [SetClockContext] of the user clock returns [result::Unimplemented]
    as an ordinary value for every argument: nothing is thrown, the result
    is a failure, and the service, with the contexts stored in all its
    clocks, is left as it was. *)
Theorem user_SetClockContext_unimplemented :
  forall (pContext : SystemClockContext.t) (w : World),
    SetClockContext UserSystemClock pContext w
    = (Normal result.Unimplemented, logged [ECall UserSystemClock mSetClockContext] w)
    /\ Result.failed result.Unimplemented = true
    /\ service (logged [ECall UserSystemClock mSetClockContext] w) = service w
    /\ forall c, stored_context c (logged [ECall UserSystemClock mSetClockContext] w)
                 = stored_context c w.
Proof.
  intros pContext w. repeat split.
Qed.

(** ** Shared memory *)

Lemma land_to_u32_1 x : Z.land (to_u32 x) 1 = x mod 2.
Proof.
  unfold to_u32. change 1 with (Z.ones 1). rewrite Z.land_ones by lia.
  change (2 ^ 1) with 2.
  apply Z.mod_mod_divide.
  exists (2 ^ 31). reflexivity.
Qed.

Lemma entry_with_entry ch e s : entry ch (with_entry ch e s) = e.
Proof. destruct ch; reflexivity. Qed.

Lemma with_entry_with_entry ch e e' s :
  with_entry ch e' (with_entry ch e s) = with_entry ch e' s.
Proof. destruct ch; reflexivity. Qed.

(** One run of [UpdateTimeSharedMemoryItem]: it completes normally, having
    replaced the slot selected by the parity of the new count and then the
    count, and having issued the slot store, the barrier and the count store
    in this order. *)
Lemma UpdateTimeSharedMemoryItem_run ch v w :
  let e := entry ch (service w) in
  let n := to_u32 (SystemClockContextEntry.updateCount e + 1) in
  exists item,
    Array2.set (SystemClockContextEntry.context e) (Z.land n 1) v = Some item
    /\ UpdateTimeSharedMemoryItem ch v w
       = (Normal tt,
          mkWorld (with_entry ch (SystemClockContextEntry.mk n item) (service w))
                  (timeNs w) (reads w) (trace w ++ store_events ch v w)).
Proof.
  cbv zeta. unfold UpdateTimeSharedMemoryItem, store_events.
  unfold bind at 1. cbn [gets].
  set (n := to_u32 (SystemClockContextEntry.updateCount (entry ch (service w)) + 1)).
  assert (Hbit : Z.land n 1 = 0 \/ Z.land n 1 = 1).
  { unfold n. rewrite land_to_u32_1.
    pose proof (Z.mod_pos_bound (SystemClockContextEntry.updateCount (entry ch (service w)) + 1) 2).
    lia. }
  unfold Array2.set.
  destruct Hbit as [-> | ->]; cbn [Z.eqb Pos.eqb];
    (eexists; split; [reflexivity |]);
    unfold_monad; cbn; rewrite with_entry_with_entry, <- !app_assoc; reflexivity.
Qed.

(** C6, on the code: when the counter of the local channel stands at
    2^32 - 1, a publish leaves it at 0, which is not the counter plus one. *)
Lemma publish_wraps_counter :
  SystemClockContextEntry.updateCount (entry LocalChannel (service saturated_world))
  = 4294967295
  /\ exists w',
       UpdateLocalSystemClockContext network_context saturated_world = (Normal tt, w')
       /\ SystemClockContextEntry.updateCount (entry LocalChannel (service w')) = 0
       /\ SystemClockContextEntry.updateCount (entry LocalChannel (service w'))
          <> 4294967295 + 1.
Proof.
  split; [reflexivity |].
  eexists. split; [vm_compute; reflexivity |].
  split; [reflexivity | discriminate].
Qed.

(** C6, amended: a direct publish of [v] into a channel whose counter is [c]
    completes normally and leaves the counter at [(c + 1) mod 2^32], which is
    [c + 1] unless [c] is 2^32 - 1 and in every case differs from [c]; [v] is
    in the slot of index [(c + 1) mod 2] and the other slot is untouched; the
    slot store, the [DMB ISHST] barrier and the counter store are issued in
    this order.  The publish is never a no-op, whatever was published
    before. *)
Theorem direct_publish_advances :
  forall (ch : Channel) (v : SystemClockContext.t) (w : World),
    let e := entry ch (service w) in
    let c := SystemClockContextEntry.updateCount e in
    let n := (c + 1) mod 2 ^ 32 in
    exists w',
      UpdateTimeSharedMemoryItem ch v w = (Normal tt, w')
      /\ SystemClockContextEntry.updateCount (entry ch (service w')) = n
      /\ (0 <= c < 2 ^ 32 - 1 -> n = c + 1)
      /\ n <> c
      /\ Array2.get (SystemClockContextEntry.context (entry ch (service w'))) ((c + 1) mod 2)
         = Some v
      /\ Array2.get (SystemClockContextEntry.context (entry ch (service w'))) (c mod 2)
         = Array2.get (SystemClockContextEntry.context e) (c mod 2)
      /\ trace w' = trace w ++ [EStoreItem ch ((c + 1) mod 2) v; EDMB_ISHST;
                                EStoreUpdateCount ch n].
Proof.
  intros ch v w e c n.
  destruct (UpdateTimeSharedMemoryItem_run ch v w) as (item & Hset & Hrun).
  fold e in Hset, Hrun. fold c in Hset, Hrun.
  unfold store_events in Hrun. fold e in Hrun. fold c in Hrun.
  rewrite land_to_u32_1 in Hset, Hrun.
  change (to_u32 (c + 1)) with n in Hrun.
  eexists. split; [exact Hrun |].
  cbn [service trace]. rewrite entry_with_entry. cbn [SystemClockContextEntry.updateCount
                                                     SystemClockContextEntry.context].
  pose proof (Z.mod_pos_bound (c + 1) (2 ^ 32) ltac:(lia)) as Hn. fold n in Hn.
  pose proof (Z.div_mod c 2 ltac:(lia)) as Hc.
  pose proof (Z.div_mod (c + 1) 2 ltac:(lia)) as Hc1.
  pose proof (Z.mod_pos_bound c 2 ltac:(lia)) as Hb.
  pose proof (Z.mod_pos_bound (c + 1) 2 ltac:(lia)) as Hb1.
  split; [reflexivity |].
  split; [intros Hrange; unfold n; apply Z.mod_small; lia |].
  split.
  { intros Heq. pose proof (Z.div_mod (c + 1) (2 ^ 32) ltac:(lia)) as Hd.
    fold n in Hd. lia. }
  unfold Array2.set in Hset. unfold Array2.get.
  assert (Hcase : (c + 1) mod 2 = 0 /\ c mod 2 = 1 \/ (c + 1) mod 2 = 1 /\ c mod 2 = 0) by lia.
  destruct Hcase as [[H1 H0] | [H1 H0]]; rewrite H1, H0 in *; cbn in Hset |- *;
    injection Hset as <-; repeat split.
Qed.

Lemma direct_publish_advances_witness :
  exists w',
    UpdateTimeSharedMemoryItem LocalChannel network_context (boot backward_source)
    = (Normal tt, w')
    /\ SystemClockContextEntry.updateCount (entry LocalChannel (service w')) = 0 + 1.
Proof.
  destruct (direct_publish_advances LocalChannel network_context (boot backward_source))
    as (w' & Hrun & Hcount & Hstep & _).
  exists w'. split; [exact Hrun |].
  rewrite Hcount. apply Hstep. cbn. lia.
Defined.

(** ** Context writers *)

Lemma UUID_eqb_eq a b : UUID.eqb a b = true <-> a = b.
Proof.
  destruct a as [x], b as [y]. unfold UUID.eqb. cbn.
  rewrite Z.eqb_eq. split; congruence.
Qed.

Lemma SteadyClockTimePoint_eqb_eq a b : SteadyClockTimePoint.eqb a b = true <-> a = b.
Proof.
  destruct a as [s u], b as [s' u']. unfold SteadyClockTimePoint.eqb. cbn.
  rewrite andb_true_iff, Z.eqb_eq, UUID_eqb_eq. split.
  - intros [-> ->]. reflexivity.
  - intros H. injection H as -> ->. split; reflexivity.
Qed.

(** The defaulted [operator==] of [SystemClockContext] is structural
    equality. *)
Lemma SystemClockContext_eqb_eq a b : SystemClockContext.eqb a b = true <-> a = b.
Proof.
  destruct a as [p o], b as [p' o']. unfold SystemClockContext.eqb. cbn.
  rewrite andb_true_iff, Z.eqb_eq, SteadyClockTimePoint_eqb_eq. split.
  - intros [-> ->]. reflexivity.
  - intros H. injection H as -> ->. split; reflexivity.
Qed.

Lemma already_stored_iff wr v w :
  already_stored wr v w = true
  <-> SystemClockContextUpdateCallback.context (writer wr (service w)) = Some v.
Proof.
  unfold already_stored.
  destruct (SystemClockContextUpdateCallback.context (writer wr (service w))) as [c |]; cbn.
  - rewrite SystemClockContext_eqb_eq. split; congruence.
  - split; discriminate.
Qed.

Lemma writer_with_writer wr v s : writer wr (with_writer wr v s) = v.
Proof. destruct wr; reflexivity. Qed.

(** The world after [UpdateBaseContext] has stored [v] in the writer [wr]. *)
Lemma UpdateBaseContext_run wr v w :
  UpdateBaseContext wr v w
  = if already_stored wr v w then (Normal false, w)
    else (Normal true,
          with_service
            (fun s => with_writer wr
                        (SystemClockContextUpdateCallback.with_context (Some v) (writer wr s)) s)
            w).
Proof.
  unfold UpdateBaseContext, already_stored.
  unfold bind at 1. cbn [gets].
  destruct (_ && _); reflexivity.
Qed.

Lemma Signal_each_run l :
  forall w, Signal_each l w = (Normal tt, logged (map ESignal l) w).
Proof.
  induction l as [| ev l IH]; intros w; cbn [Signal_each map].
  - unfold ret, logged. rewrite app_nil_r. destruct w; reflexivity.
  - unfold bind. cbn [emit]. rewrite IH. unfold logged. cbn.
    rewrite <- app_assoc. reflexivity.
Qed.

Lemma SignalOperationEvent_run wr w :
  SignalOperationEvent wr w = (Normal tt, logged (signal_events wr w) w).
Proof.
  unfold SignalOperationEvent. unfold bind. cbn [gets]. apply Signal_each_run.
Qed.

(** One run of [UpdateContext]: when the context is already stored it
    returns success and nothing at all has happened; otherwise the context
    is stored, published by the local and the network writer, the
    subscribers are signalled, and control reaches the end of the body. *)
Lemma UpdateContext_run wr v w :
  exists o w',
    UpdateContext wr v w = (o, w')
    /\ (already_stored wr v w = true -> o = Normal Result.Success /\ w' = w)
    /\ (already_stored wr v w = false -> exists what, o = Undefined what)
    /\ trace w' = trace w ++ (if already_stored wr v w then []
                              else publish_events wr v w ++ signal_events wr w)
    /\ already_stored wr v w' = true.
Proof.
  destruct (already_stored wr v w) eqn:Hdup.
  - exists (Normal Result.Success), w.
    split.
    + destruct wr; cbn [UpdateContext];
        unfold LocalSystemClockContextWriter_UpdateContext,
          NetworkSystemClockContextWriter_UpdateContext,
          EphemeralNetworkSystemClockContextWriter_UpdateContext;
        unfold bind at 1; rewrite UpdateBaseContext_run, Hdup; reflexivity.
    + rewrite app_nil_r. repeat split; try discriminate. exact Hdup.
  - set (w0 := with_service
                 (fun s => with_writer wr
                    (SystemClockContextUpdateCallback.with_context (Some v) (writer wr s)) s)
                 w).
    assert (Hstored : forall w1, writer wr (service w1) = writer wr (service w0) ->
                                 already_stored wr v w1 = true).
    { intros w1 Hw. apply already_stored_iff. rewrite Hw. unfold w0. cbn.
      rewrite writer_with_writer. reflexivity. }
    destruct wr; cbn [UpdateContext];
      unfold LocalSystemClockContextWriter_UpdateContext,
        NetworkSystemClockContextWriter_UpdateContext,
        EphemeralNetworkSystemClockContextWriter_UpdateContext,
        UpdateLocalSystemClockContext, UpdateNetworkSystemClockContext, missing_return;
      unfold bind at 1; rewrite UpdateBaseContext_run, Hdup; fold w0; cbn [negb].
    + destruct (UpdateTimeSharedMemoryItem_run LocalChannel v w0) as (item & _ & Hrun).
      unfold bind at 1. rewrite Hrun.
      unfold bind at 1. rewrite SignalOperationEvent_run.
      eexists. eexists. split; [reflexivity |].
      split; [discriminate |]. split; [intros _; eexists; reflexivity |]. split.
      * cbn. rewrite <- app_assoc. reflexivity.
      * apply Hstored. reflexivity.
    + destruct (UpdateTimeSharedMemoryItem_run NetworkChannel v w0) as (item & _ & Hrun).
      unfold bind at 1. rewrite Hrun.
      unfold bind at 1. rewrite SignalOperationEvent_run.
      eexists. eexists. split; [reflexivity |].
      split; [discriminate |]. split; [intros _; eexists; reflexivity |]. split.
      * cbn. rewrite <- app_assoc. reflexivity.
      * apply Hstored. reflexivity.
    + unfold bind at 1. rewrite SignalOperationEvent_run.
      eexists. eexists. split; [reflexivity |].
      split; [discriminate |]. split; [intros _; eexists; reflexivity |]. split.
      * reflexivity.
      * apply Hstored. reflexivity.
Qed.




(** ** Binary layout *)

(** C8: the shared memory is 4096 bytes; in its layout the local channel is
    at offset 0x38, the network channel at 0x80 and the flag channel at 0xC8;
    a context channel is 0x48 bytes, a 32-bit counter, 32 bits of padding and
    two contexts of 32 bytes; the flag channel is a 32-bit counter and one
    byte; a steady clock time point is 24 bytes, 8 of seconds followed
    directly by 16 of identifier, and a system clock context is 32 bytes. *)
Theorem shared_memory_layout :
  constant.TimeSharedMemorySize = 4096
  /\ sizeof Layout.TimeSharedMemoryLayout <= constant.TimeSharedMemorySize
  /\ offsetof Layout.TimeSharedMemoryLayout "localSystemClockContextEntry" = Some 0x38
  /\ offsetof Layout.TimeSharedMemoryLayout "networkSystemClockContextEntry" = Some 0x80
  /\ offsetof Layout.TimeSharedMemoryLayout "automaticCorrectionEnabledEntry" = Some 0xC8
  /\ sizeof Layout.SystemClockContextEntry = 0x48
  /\ offsetof Layout.SystemClockContextEntry "updateCount" = Some 0
  /\ typeof_member Layout.SystemClockContextEntry "updateCount" = Some Tu32
  /\ offsetof Layout.SystemClockContextEntry "_pad_" = Some 4
  /\ typeof_member Layout.SystemClockContextEntry "_pad_" = Some Tu32
  /\ offsetof Layout.SystemClockContextEntry "context" = Some 8
  /\ typeof_member Layout.SystemClockContextEntry "context"
     = Some (Tarray Layout.SystemClockContext 2)
  /\ offsetof Layout.AutomaticCorrectionEnabledEntry "updateCount" = Some 0
  /\ typeof_member Layout.AutomaticCorrectionEnabledEntry "updateCount" = Some Tu32
  /\ offsetof Layout.AutomaticCorrectionEnabledEntry "automaticCorrectionEnabled" = Some 4
  /\ typeof_member Layout.AutomaticCorrectionEnabledEntry "automaticCorrectionEnabled"
     = Some Tu8
  /\ sizeof Layout.SteadyClockTimePoint = 24
  /\ offsetof Layout.SteadyClockTimePoint "timePoint" = Some 0
  /\ typeof_member Layout.SteadyClockTimePoint "timePoint" = Some Ti64
  /\ offsetof Layout.SteadyClockTimePoint "clockSourceId" = Some 8
  /\ sizeof Layout.UUID = 16
  /\ sizeof Layout.SystemClockContext = 32
  /\ offsetof Layout.SystemClockContext "steadyTimePoint" = Some 0
  /\ offsetof Layout.SystemClockContext "offset" = Some 24.
Proof.
  repeat split; vm_compute; congruence.
Qed.

(** * Further properties *)

(** ** The standard steady clock over many reads *)

Lemma to_i64_small z : in_i64 z -> to_i64 z = z.
Proof.
  unfold in_i64, to_i64. intros H.
  rewrite Z.mod_small by lia. lia.
Qed.

Lemma to_i64_range z : in_i64 (to_i64 z).
Proof.
  unfold in_i64, to_i64.
  pose proof (Z.mod_pos_bound (z + 2 ^ 63) (2 ^ 64) ltac:(lia)). lia.
Qed.

Lemma raw_at_after_read c w k : raw_at (after_read c w) k = raw_at w k.
Proof.
  unfold raw_at. destruct c; unfold after_read; cbn [service timeNs];
    autorewrite with frame; reflexivity.
Qed.

Lemma fresh_raw_raw_at w : fresh_raw w = raw_at w (reads w).
Proof. reflexivity. Qed.

Lemma cached_ns_after_read w :
  cached_ns (after_read StandardSteadyClock w)
  = Z.max (cached_ns w) (TimeSpanType.ns (fresh_raw w)).
Proof.
  unfold cached_ns, after_read. cbn [service]. apply ratchet_cachedValue.
Qed.

(** [n] consecutive reads return the values computed from the next [n]
    readings of the source. *)
Lemma calls_GetRawTimePoint_run :
  forall n w,
    calls StandardSteadyClockCore_GetRawTimePoint n w
    = (Normal (map (raw_at w) (seq (reads w) n)), after_reads n w).
Proof.
  induction n as [| n IH]; intros w; cbn [calls after_reads seq map].
  - reflexivity.
  - unfold bind at 1. rewrite StandardSteadyClockCore_GetRawTimePoint_run.
    unfold bind at 1. rewrite IH. unfold ret.
    rewrite fresh_raw_raw_at.
    replace (reads (after_read StandardSteadyClock w)) with (S (reads w)) by reflexivity.
    f_equal. f_equal. f_equal.
    apply map_ext. intros k. apply raw_at_after_read.
Qed.

(** X1: after any number of consecutive calls of
    [StandardSteadyClockCore::GetRawTimePoint] the cache holds the maximum of
    what it held before and of all the values returned: it never decreases
    and no returned value exceeds it. *)
Theorem cachedValue_is_running_maximum :
  forall (n : nat) (w : World),
    exists rs w',
      calls StandardSteadyClockCore_GetRawTimePoint n w = (Normal rs, w')
      /\ cached_ns w' = fold_left Z.max (map TimeSpanType.ns rs) (cached_ns w)
      /\ cached_ns w <= cached_ns w'
      /\ Forall (fun r => TimeSpanType.ns r <= cached_ns w') rs.
Proof.
  induction n as [| n IH]; intros w.
  - exists [], w. repeat split; [lia | constructor].
  - destruct (IH (after_read StandardSteadyClock w)) as (rs & w' & Hrun & Hmax & Hle & Hall).
    exists (fresh_raw w :: rs), w'.
    cbn [calls]. unfold bind at 1. rewrite StandardSteadyClockCore_GetRawTimePoint_run.
    unfold bind at 1. rewrite Hrun. unfold ret.
    rewrite cached_ns_after_read in Hmax, Hle.
    split; [reflexivity |]. split; [exact Hmax |]. split; [lia |].
    constructor; [lia | exact Hall].
Qed.

Lemma StronglySorted_map_seq {A} (R : A -> A -> Prop) (g : nat -> A) :
  forall n a,
    (forall i j, (a <= i)%nat -> (i <= j)%nat -> (j < a + n)%nat -> R (g i) (g j)) ->
    StronglySorted R (map g (seq a n)).
Proof.
  induction n as [| n IH]; intros a Hmono; cbn [seq map].
  - constructor.
  - constructor.
    + apply IH. intros i j Hi Hj Hn. apply Hmono; lia.
    + apply Forall_forall. intros x Hx.
      apply in_map_iff in Hx. destruct Hx as (j & <- & Hj).
      apply in_seq in Hj. apply Hmono; lia.
Qed.

(** X2: in front of a source that does not step backwards, and as long as
    neither a reading nor its sum with [rtcOffset] leaves the 64-bit range,
    consecutive calls of [StandardSteadyClockCore::GetRawTimePoint] return
    exactly the readings plus [rtcOffset], in non-decreasing order. *)
Theorem GetRawTimePoint_monotonic_source :
  forall (n : nat) (w : World),
    let rtc := TimeSpanType.ns (StandardSteadyClockCore.rtcOffset
                                  (TimeService.standardSteadyClock (service w))) in
    (forall k, (reads w <= k < reads w + n)%nat ->
               in_i64 (timeNs w k) /\ in_i64 (timeNs w k + rtc)) ->
    (forall i j, (reads w <= i)%nat -> (i <= j)%nat -> (j < reads w + n)%nat ->
                 timeNs w i <= timeNs w j) ->
    exists rs w',
      calls StandardSteadyClockCore_GetRawTimePoint n w = (Normal rs, w')
      /\ rs = map (fun k => TimeSpanType.FromNanoseconds (timeNs w k + rtc)) (seq (reads w) n)
      /\ StronglySorted (fun a b => TimeSpanType.ns a <= TimeSpanType.ns b) rs.
Proof.
  intros n w rtc Hrange Hmono.
  assert (Hexact : forall k, (reads w <= k < reads w + n)%nat ->
                     raw_at w k = TimeSpanType.FromNanoseconds (timeNs w k + rtc)).
  { intros k Hk. destruct (Hrange k Hk) as [H1 H2].
    unfold raw_at, TimeSpanType.add, TimeSpanType.FromNanoseconds. cbn [TimeSpanType.ns].
    fold rtc. rewrite (to_i64_small _ H1), (to_i64_small _ H2). reflexivity. }
  assert (Hrs : map (raw_at w) (seq (reads w) n)
                = map (fun k => TimeSpanType.FromNanoseconds (timeNs w k + rtc))
                      (seq (reads w) n)).
  { apply map_ext_in. intros k Hk. apply in_seq in Hk. apply Hexact. lia. }
  eexists. eexists. rewrite calls_GetRawTimePoint_run.
  split; [reflexivity |]. split; [exact Hrs |].
  rewrite Hrs. apply StronglySorted_map_seq.
  intros i j Hi Hj Hn. cbn [TimeSpanType.ns TimeSpanType.FromNanoseconds].
  pose proof (Hmono i j Hi Hj Hn). lia.
Qed.

Lemma GetRawTimePoint_monotonic_source_witness :
  exists rs w',
    calls StandardSteadyClockCore_GetRawTimePoint 3 (boot ticking_source) = (Normal rs, w')
    /\ rs = map (fun k => TimeSpanType.FromNanoseconds (ticking_source k + 0)) (seq 0 3)
    /\ StronglySorted (fun a b => TimeSpanType.ns a <= TimeSpanType.ns b) rs.
Proof.
  apply (GetRawTimePoint_monotonic_source 3 (boot ticking_source)).
  - intros k Hk. cbn in Hk |- *. unfold ticking_source, in_i64. lia.
  - intros i j _ Hij _. cbn. unfold ticking_source. lia.
Defined.

(** ** Whole seconds and correction offsets *)

Lemma to_u64_small z : 0 <= z < 2 ^ 64 -> to_u64 z = z.
Proof. intros H. unfold to_u64. apply Z.mod_small. exact H. Qed.

Lemma to_u64_neg z : - 2 ^ 64 <= z < 0 -> to_u64 z = z + 2 ^ 64.
Proof.
  intros H. unfold to_u64.
  rewrite <- (Z_mod_plus_full z 1 (2 ^ 64)). apply Z.mod_small. lia.
Qed.

Lemma to_u64_range z : 0 <= to_u64 z < 2 ^ 64.
Proof. unfold to_u64. apply Z.mod_pos_bound. lia. Qed.

(** The seconds of a duration are never negative: the division is an
    unsigned one. *)
Lemma Seconds_range x :
  TimeSpanType.Seconds x = to_u64 (TimeSpanType.ns x) / constant.NsInSecond
  /\ 0 <= TimeSpanType.Seconds x <= 18446744073.
Proof.
  unfold TimeSpanType.Seconds, constant.NsInSecond.
  pose proof (to_u64_range (TimeSpanType.ns x)) as Hu.
  set (u := to_u64 (TimeSpanType.ns x)) in *.
  pose proof (Z.div_mod u 1000000000 ltac:(lia)) as Hd.
  pose proof (Z.mod_pos_bound u 1000000000 ltac:(lia)) as Hm.
  change (2 ^ 64) with 18446744073709551616 in Hu.
  assert (Hq : 0 <= u / 1000000000 <= 18446744073) by lia.
  rewrite to_i64_small by (unfold in_i64; change (2 ^ 63) with 9223372036854775808; lia).
  split; [reflexivity | exact Hq].
Qed.

Lemma Seconds_in_i64 x : in_i64 (TimeSpanType.Seconds x).
Proof.
  destruct (Seconds_range x) as [_ H]. unfold in_i64.
  change (2 ^ 63) with 9223372036854775808. lia.
Qed.

Lemma Seconds_nonneg x :
  0 <= TimeSpanType.ns x < 2 ^ 63 ->
  TimeSpanType.Seconds x = TimeSpanType.ns x / constant.NsInSecond.
Proof.
  intros H. destruct (Seconds_range x) as [-> _].
  rewrite to_u64_small; [reflexivity |].
  change (2 ^ 63) with 9223372036854775808 in H.
  change (2 ^ 64) with 18446744073709551616. lia.
Qed.

Lemma Seconds_negative x :
  - 2 ^ 63 <= TimeSpanType.ns x < 0 ->
  TimeSpanType.Seconds x = (TimeSpanType.ns x + 2 ^ 64) / constant.NsInSecond.
Proof.
  intros H. destruct (Seconds_range x) as [-> _].
  rewrite to_u64_neg; [reflexivity |].
  change (2 ^ 63) with 9223372036854775808 in H.
  change (2 ^ 64) with 18446744073709551616. lia.
Qed.

(** X3: the raw time point of the tick-based steady clock, which the base
    [SteadyClockCore::GetRawTimePoint] derives from [GetTimePoint], is the
    reading of the source rounded down by less than a second, for every
    reading from one second above the smallest 64-bit value on.  For a
    reading that is not negative it is the reading cut down to whole
    seconds; for a negative reading [x] the unsigned division makes it
    [x - (x + 2^64) mod 10^9].  Nothing is thrown and the service is left
    as it was. *)
Theorem tick_based_raw_time_point_whole_seconds :
  forall (w : World),
    let x := to_i64 (timeNs w (reads w)) in
    exists r w',
      GetRawTimePoint TickBasedSteadyClock w = (Normal r, w')
      /\ (0 <= x ->
          TimeSpanType.ns r = x / constant.NsInSecond * constant.NsInSecond
          /\ 0 <= x - TimeSpanType.ns r < constant.NsInSecond)
      /\ (- 2 ^ 63 + constant.NsInSecond <= x < 0 ->
          TimeSpanType.ns r = x - (x + 2 ^ 64) mod constant.NsInSecond
          /\ 0 <= x - TimeSpanType.ns r < constant.NsInSecond)
      /\ service w' = service w
      /\ reads w' = S (reads w).
Proof.
  intros w x.
  cbn [GetRawTimePoint]. unfold SteadyClockCore_GetRawTimePoint, bind.
  rewrite GetTimePoint_run. unfold ret.
  eexists. eexists. split; [reflexivity |].
  cbn [seconds_read SteadyClockTimePoint.timePoint]. fold x.
  pose proof (to_i64_range (timeNs w (reads w))) as Hx. fold x in Hx. unfold in_i64 in Hx.
  unfold TimeSpanType.FromSeconds. cbn [TimeSpanType.ns].
  change (2 ^ 63) with 9223372036854775808 in *.
  change (2 ^ 64) with 18446744073709551616 in *.
  split; [| split; [| split; reflexivity]].
  - intros H0.
    rewrite Seconds_nonneg
      by (cbn [TimeSpanType.ns TimeSpanType.FromNanoseconds];
          change (2 ^ 63) with 9223372036854775808; lia).
    cbn [TimeSpanType.ns TimeSpanType.FromNanoseconds]. unfold constant.NsInSecond.
    pose proof (Z.div_mod x 1000000000 ltac:(lia)) as Hd.
    pose proof (Z.mod_pos_bound x 1000000000 ltac:(lia)) as Hm.
    rewrite to_i64_small by (unfold in_i64; change (2 ^ 63) with 9223372036854775808; lia).
    lia.
  - unfold constant.NsInSecond. intros Hneg.
    rewrite Seconds_negative
      by (cbn [TimeSpanType.ns TimeSpanType.FromNanoseconds];
          change (2 ^ 63) with 9223372036854775808; lia).
    cbn [TimeSpanType.ns TimeSpanType.FromNanoseconds]. unfold constant.NsInSecond.
    change (2 ^ 64) with 18446744073709551616.
    set (u := x + 18446744073709551616).
    pose proof (Z.div_mod u 1000000000 ltac:(lia)) as Hd.
    pose proof (Z.mod_pos_bound u 1000000000 ltac:(lia)) as Hm.
    assert (Hwrap : to_i64 (u / 1000000000 * 1000000000)
                    = u / 1000000000 * 1000000000 - 18446744073709551616).
    { unfold to_i64.
      change (2 ^ 63) with 9223372036854775808.
      change (2 ^ 64) with 18446744073709551616.
      rewrite <- (Z_mod_plus_full _ (-1) 18446744073709551616).
      rewrite Z.mod_small by (unfold u in *; lia). lia. }
    rewrite Hwrap. unfold u in *. lia.
Qed.

Lemma tick_based_raw_time_point_whole_seconds_witness :
  exists w',
    GetRawTimePoint TickBasedSteadyClock (boot negative_source)
    = (Normal (TimeSpanType.FromNanoseconds (- 1709551616)), w')
    /\ exists w'',
         GetRawTimePoint TickBasedSteadyClock (boot backward_source)
         = (Normal (TimeSpanType.FromNanoseconds 5000000000), w'').
Proof.
  destruct (tick_based_raw_time_point_whole_seconds (boot negative_source))
    as (r & w' & Hrun & _ & Hneg & _).
  destruct (tick_based_raw_time_point_whole_seconds (boot backward_source))
    as (r2 & w2 & Hrun2 & Hpos & _).
  exists w'. split.
  - destruct Hneg as [Hr _]; [vm_compute; split; [discriminate | reflexivity] |].
    destruct r as [n]. cbn [TimeSpanType.ns] in Hr. rewrite Hr in Hrun. exact Hrun.
  - exists w2.
    destruct Hpos as [Hr _]; [vm_compute; discriminate |].
    destruct r2 as [n]. cbn [TimeSpanType.ns] in Hr. rewrite Hr in Hrun2. exact Hrun2.
Defined.

(** X4: the tick-based steady clock ignores correction offsets: whatever is
    passed to [SetTestOffset] and [SetInternalOffset], they change nothing
    and [GetCurrentTimePoint] returns what [GetTimePoint] would have
    returned. *)
Theorem tick_based_clock_ignores_offsets :
  forall (t i : TimeSpanType.t) (w : World),
    (SetTestOffset TickBasedSteadyClock t ;;
     SetInternalOffset TickBasedSteadyClock i ;;
     GetCurrentTimePoint TickBasedSteadyClock) w
    = GetTimePoint TickBasedSteadyClock w.
Proof.
  intros t i w.
  unfold bind at 1. cbn [SetTestOffset ret].
  unfold bind at 1. cbn [SetInternalOffset ret].
  rewrite GetCurrentTimePoint_run, GetTimePoint_run.
  f_equal. f_equal. f_equal. f_equal.
  cbn [seconds_read correction].
  change (TimeSpanType.Seconds (TimeSpanType.add TimeSpanType.zero TimeSpanType.zero)) with 0.
  rewrite Z.add_0_r. apply to_i64_small. apply Seconds_in_i64.
Qed.

(** X5: on the standard steady clock the two correction offsets are stored
    and read back independently of each other, and [GetCurrentTimePoint]
    then reports the seconds of the raw time point plus the seconds of the
    sum of the two offsets, under the identifier of the clock.  The seconds
    of that sum come from an unsigned division and are never negative, so no
    pair of offsets moves the reported seconds below those of the raw time
    point short of 64-bit overflow.  Setting the offsets changes neither the
    identifier, nor [rtcOffset], nor the cache. *)
Theorem standard_clock_offsets_round_trip :
  forall (t i : TimeSpanType.t) (w : World),
    exists w1 w2,
      (SetTestOffset StandardSteadyClock t ;; SetInternalOffset StandardSteadyClock i) w
      = (Normal tt, w1)
      /\ fst (GetTestOffset StandardSteadyClock w1) = Normal t
      /\ fst (GetInternalOffset StandardSteadyClock w1) = Normal i
      /\ GetCurrentTimePoint StandardSteadyClock w1
         = (Normal (Value (SteadyClockTimePoint.mk
                             (to_i64 (TimeSpanType.Seconds (fresh_raw w)
                                      + TimeSpanType.Seconds (TimeSpanType.add t i)))
                             (steadyClock_id StandardSteadyClock (service w)))), w2)
      /\ 0 <= TimeSpanType.Seconds (fresh_raw w) <= 18446744073
      /\ 0 <= TimeSpanType.Seconds (TimeSpanType.add t i) <= 18446744073
      /\ TimeSpanType.Seconds (TimeSpanType.add t i)
         = to_u64 (to_i64 (TimeSpanType.ns t + TimeSpanType.ns i)) / constant.NsInSecond
      /\ steadyClock_id StandardSteadyClock (service w1)
         = steadyClock_id StandardSteadyClock (service w)
      /\ cached_ns w1 = cached_ns w
      /\ raw_at w1 = raw_at w.
Proof.
  intros t i w. eexists. eexists.
  split; [reflexivity |]. split; [reflexivity |]. split; [reflexivity |].
  split; [rewrite GetCurrentTimePoint_run; reflexivity |].
  split; [apply Seconds_range |]. split; [apply Seconds_range |].
  split; [apply Seconds_range |].
  repeat split.
Qed.

(** ** System clocks: storing, reading and checking *)

Lemma StandardUserSystemClockCore_GetClockContext_world w :
  StandardUserSystemClockCore_GetClockContext w
  = (Normal (Value
       (if StandardUserSystemClockCore.automaticCorrectionEnabled
             (TimeService.userSystemClock (service w))
           && UUID.Valid (steadyClock_id (steadyClock_of NetworkSystemClock (service w))
                            (service w))
        then stored_context NetworkSystemClock w
        else stored_context LocalSystemClock w)),
     after_user_GetClockContext w).
Proof.
  unfold StandardUserSystemClockCore_GetClockContext, after_user_GetClockContext.
  unfold bind at 1. cbn [emit].
  fold (logged [ECall UserSystemClock mGetClockContext] w).
  unfold bind at 1. cbn [gets service logged].
  destruct (StandardUserSystemClockCore.automaticCorrectionEnabled _) eqn:Hen; cbn [andb].
  - unfold bind at 1. rewrite SystemClockCore_IsClockSetup_run. cbn [service logged].
    destruct (UUID.Valid _) eqn:Hv.
    + unfold bind at 1. rewrite SystemClockCore_GetClockContext_run.
      unfold bind at 1. rewrite SystemClockCore_SetClockContext_run.
      cbn [Result.failed Result.Success Result.module Result.code Z.eqb andb negb].
      rewrite SystemClockCore_GetClockContext_run.
      unfold stored_context. cbn. autorewrite with frame. reflexivity.
    + rewrite SystemClockCore_GetClockContext_run.
      unfold stored_context. cbn. autorewrite with frame. reflexivity.
  - unfold bind at 1. cbn [ret].
    rewrite SystemClockCore_GetClockContext_run. reflexivity.
Qed.

(** X6: on the local, the network and the ephemeral clock a context stored
    with [SetClockContext] is what [GetClockContext] returns next;
    [SetClockContext] succeeds, and the contexts stored in the other clocks
    stay as they were. *)
Theorem SetClockContext_then_GetClockContext :
  forall (c : SystemClockRef) (pContext : SystemClockContext.t) (w : World),
    c <> UserSystemClock ->
    exists w',
      SetClockContext c pContext w = (Normal Result.Success, w')
      /\ fst (GetClockContext c w') = Normal (Value pContext)
      /\ stored_context c w' = pContext
      /\ (forall c', c' <> c -> stored_context c' w' = stored_context c' w)
      /\ reads w' = reads w.
Proof.
  intros c pContext w Hc.
  destruct c; try congruence; cbn [SetClockContext GetClockContext];
    rewrite SystemClockCore_SetClockContext_run;
    (eexists; split; [reflexivity |]);
    rewrite SystemClockCore_GetClockContext_run;
    (split; [reflexivity |]); (split; [reflexivity |]);
    (split; [| reflexivity]);
    intros c' Hc'; destruct c'; try congruence; reflexivity.
Qed.

Lemma SetClockContext_then_GetClockContext_witness :
  exists w',
    SetClockContext NetworkSystemClock network_context (boot backward_source)
    = (Normal Result.Success, w')
    /\ fst (GetClockContext NetworkSystemClock w') = Normal (Value network_context)
    /\ stored_context NetworkSystemClock w' = network_context
    /\ (forall c', c' <> NetworkSystemClock ->
                   stored_context c' w' = stored_context c' (boot backward_source))
    /\ reads w' = reads (boot backward_source).
Proof.
  apply (SetClockContext_then_GetClockContext NetworkSystemClock network_context
           (boot backward_source)).
  discriminate.
Defined.

Lemma after_user_GetClockContext_frame w :
  let w' := after_user_GetClockContext w in
  TimeService.userSystemClock (service w') = TimeService.userSystemClock (service w)
  /\ TimeService.networkSystemClock (service w') = TimeService.networkSystemClock (service w)
  /\ (forall sc, steadyClock_id sc (service w') = steadyClock_id sc (service w))
  /\ steadyClock_of NetworkSystemClock (service w')
     = steadyClock_of NetworkSystemClock (service w)
  /\ stored_context LocalSystemClock w'
     = (if StandardUserSystemClockCore.automaticCorrectionEnabled
             (TimeService.userSystemClock (service w))
           && UUID.Valid (steadyClock_id (steadyClock_of NetworkSystemClock (service w))
                            (service w))
        then stored_context NetworkSystemClock w
        else stored_context LocalSystemClock w).
Proof.
  cbv zeta. unfold after_user_GetClockContext, stored_context, steadyClock_of.
  destruct (StandardUserSystemClockCore.automaticCorrectionEnabled _); cbn [andb].
  - destruct (UUID.Valid _); cbn; autorewrite with frame;
      (repeat split; try reflexivity);
      intros sc; rewrite ?(steadyClock_id_with_systemClock sc LocalSystemClock);
      rewrite steadyClock_id_after_read; reflexivity.
  - repeat split.
Qed.

(** X7: [GetClockContext] of the user clock settles at once: a second call
    returns the same context as the first, and leaves the contexts stored in
    the local and in the network clock as the first call left them. *)
Theorem user_GetClockContext_settles :
  forall (w : World),
    exists ctx w1 w2,
      GetClockContext UserSystemClock w = (Normal (Value ctx), w1)
      /\ GetClockContext UserSystemClock w1 = (Normal (Value ctx), w2)
      /\ stored_context LocalSystemClock w1 = ctx
      /\ stored_context LocalSystemClock w2 = ctx
      /\ stored_context NetworkSystemClock w2 = stored_context NetworkSystemClock w.
Proof.
  intros w. cbn [GetClockContext].
  destruct (after_user_GetClockContext_frame w) as (Hu & Hn & Hid & Hsc & Hl).
  destruct (after_user_GetClockContext_frame (after_user_GetClockContext w))
    as (Hu2 & Hn2 & Hid2 & Hsc2 & Hl2).
  cbv zeta in *.
  eexists. exists (after_user_GetClockContext w).
  exists (after_user_GetClockContext (after_user_GetClockContext w)).
  split; [apply StandardUserSystemClockCore_GetClockContext_world |].
  assert (HnetCtx : stored_context NetworkSystemClock (after_user_GetClockContext w)
                    = stored_context NetworkSystemClock w).
  { unfold stored_context. cbn [systemClock]. rewrite Hn. reflexivity. }
  split.
  { rewrite StandardUserSystemClockCore_GetClockContext_world.
    rewrite Hu, Hsc, Hid, HnetCtx, Hl.
    destruct (_ && _); reflexivity. }
  split; [exact Hl |]. split.
  { rewrite Hl2, Hu, Hsc, Hid, HnetCtx, Hl. destruct (_ && _); reflexivity. }
  unfold stored_context in *. cbn [systemClock]. rewrite Hn2, Hn. reflexivity.
Qed.

Lemma trace_after_read c w : trace (after_read c w) = trace w ++ [EGetTimeNs].
Proof. reflexivity. Qed.

Lemma reads_after_read c w : reads (after_read c w) = S (reads w).
Proof. reflexivity. Qed.

Lemma after_user_GetClockContext_reads w :
  let w' := after_user_GetClockContext w in
  reads w' = (reads w
              + if StandardUserSystemClockCore.automaticCorrectionEnabled
                     (TimeService.userSystemClock (service w))
                then 1 else 0)%nat
  /\ TimeService.empheralNetworkClock (service w')
     = TimeService.empheralNetworkClock (service w)
  /\ steadyClock_of UserSystemClock (service w') = steadyClock_of UserSystemClock (service w).
Proof.
  cbv zeta. unfold after_user_GetClockContext, steadyClock_of.
  destruct (StandardUserSystemClockCore.automaticCorrectionEnabled _).
  - destruct (UUID.Valid _); cbn; autorewrite with frame;
      rewrite ?reads_after_read; cbn; repeat split; lia.
  - cbn. repeat split; lia.
Qed.

(** X8: with automatic correction enabled but the network clock not set up,
    [GetClockContext] of the user clock returns the context stored in the
    local clock and changes no stored context; it has asked the network
    clock, which has read the source once. *)
Theorem user_GetClockContext_network_not_setup :
  forall (w : World),
    StandardUserSystemClockCore.automaticCorrectionEnabled
      (TimeService.userSystemClock (service w)) = true ->
    fst (IsClockSetup NetworkSystemClock w) = Normal false ->
    exists w',
      GetClockContext UserSystemClock w
      = (Normal (Value (stored_context LocalSystemClock w)), w')
      /\ (forall c, stored_context c w' = stored_context c w)
      /\ reads w' = S (reads w)
      /\ trace w' = trace w ++ [ECall UserSystemClock mGetClockContext;
                                ECall NetworkSystemClock mIsClockSetup;
                                ECall NetworkSystemClock mGetClockContext;
                                EGetTimeNs;
                                ECall LocalSystemClock mGetClockContext].
Proof.
  intros w Hen Hsetup.
  rewrite IsClockSetup_base_run in Hsetup by discriminate.
  cbn [fst] in Hsetup. injection Hsetup as Hvalid.
  cbn [GetClockContext]. rewrite StandardUserSystemClockCore_GetClockContext_world.
  rewrite Hen, Hvalid. cbn [andb].
  eexists. split; [reflexivity |].
  unfold after_user_GetClockContext. rewrite Hen, Hvalid.
  split; [| split].
  - intros c. unfold stored_context. cbn [service logged].
    rewrite systemClock_after_read. reflexivity.
  - reflexivity.
  - cbn [trace logged]. rewrite trace_after_read. cbn [trace logged].
    rewrite <- !app_assoc. reflexivity.
Qed.

Lemma user_GetClockContext_network_not_setup_witness :
  exists w',
    GetClockContext UserSystemClock enabled_world
    = (Normal (Value (stored_context LocalSystemClock enabled_world)), w')
    /\ (forall c, stored_context c w' = stored_context c enabled_world)
    /\ reads w' = S (reads enabled_world)
    /\ trace w' = trace enabled_world ++ [ECall UserSystemClock mGetClockContext;
                                          ECall NetworkSystemClock mIsClockSetup;
                                          ECall NetworkSystemClock mGetClockContext;
                                          EGetTimeNs;
                                          ECall LocalSystemClock mGetClockContext].
Proof.
  apply (user_GetClockContext_network_not_setup enabled_world); reflexivity.
Defined.

(** X9: [IsClockSetup] of the local, the network or the ephemeral clock
    changes no stored context and reads the source once.  On the user clock
    it runs the user clock's [GetClockContext] first: with correction enabled
    the source is read twice, and if the network clock is set up the local
    clock's context is overwritten with the network clock's. *)
Theorem IsClockSetup_effects :
  forall (c : SystemClockRef) (w : World),
    let enabled := StandardUserSystemClockCore.automaticCorrectionEnabled
                     (TimeService.userSystemClock (service w)) in
    let setup := UUID.Valid (steadyClock_id (steadyClock_of NetworkSystemClock (service w))
                               (service w)) in
    exists b w',
      IsClockSetup c w = (Normal b, w')
      /\ stored_context NetworkSystemClock w' = stored_context NetworkSystemClock w
      /\ stored_context UserSystemClock w' = stored_context UserSystemClock w
      /\ stored_context EmpheralNetworkClock w' = stored_context EmpheralNetworkClock w
      /\ stored_context LocalSystemClock w'
         = (if is_user c && enabled && setup then stored_context NetworkSystemClock w
            else stored_context LocalSystemClock w)
      /\ reads w' = (reads w + if is_user c && enabled then 2 else 1)%nat.
Proof.
  intros c w enabled setup.
  destruct (IsClockSetup_run c w) as (ctx & w1 & Hctx & _ & _ & Hrun).
  rewrite Hrun. eexists. eexists. split; [reflexivity |].
  unfold stored_context. rewrite !systemClock_after_read, reads_after_read.
  destruct c; cbn [GetClockContext is_user andb] in *;
    try (rewrite SystemClockCore_GetClockContext_run in Hctx;
         injection Hctx as _ <-; cbn; repeat split; lia).
  rewrite StandardUserSystemClockCore_GetClockContext_world in Hctx.
  injection Hctx as _ <-.
  set (w0 := logged [ECall UserSystemClock mIsClockSetup] w).
  destruct (after_user_GetClockContext_frame w0) as (Hu & Hn & _ & _ & Hl).
  destruct (after_user_GetClockContext_reads w0) as (Hr & He & _).
  cbv zeta in Hu, Hn, Hl, Hr, He. unfold stored_context in Hl.
  cbn [systemClock]. rewrite Hu, Hn, He, Hr.
  split; [reflexivity |]. split; [reflexivity |]. split; [reflexivity |].
  split; [exact Hl |].
  subst w0. cbn [service logged reads]. fold enabled. destruct enabled; lia.
Qed.

(** ** Shared memory over many publishes *)

Lemma land_1_mod x : Z.land x 1 = x mod 2.
Proof. change 1 with (Z.ones 1). rewrite Z.land_ones by lia. reflexivity. Qed.

Lemma entry_with_entry_other ch e s :
  entry (other_channel ch) (with_entry ch e s) = entry (other_channel ch) s.
Proof. destruct ch; reflexivity. Qed.

(** One publish, seen through the parity of the counter: the published value
    is in the current slot and what was current before is in the other. *)
Lemma UpdateTimeSharedMemoryItem_slots ch v w :
  let e := entry ch (service w) in
  exists w',
    UpdateTimeSharedMemoryItem ch v w = (Normal tt, w')
    /\ SystemClockContextEntry.updateCount (entry ch (service w'))
       = (SystemClockContextEntry.updateCount e + 1) mod 2 ^ 32
    /\ current_slot (entry ch (service w')) = Some v
    /\ other_slot (entry ch (service w')) = current_slot e
    /\ entry (other_channel ch) (service w') = entry (other_channel ch) (service w)
    /\ without_memory (service w') = without_memory (service w)
    /\ TimeSharedMemoryLayout.automaticCorrectionEnabledEntry
         (TimeService.timeSharedMemory (service w'))
       = TimeSharedMemoryLayout.automaticCorrectionEnabledEntry
           (TimeService.timeSharedMemory (service w))
    /\ signals w' = signals w.
Proof.
  cbv zeta.
  destruct (UpdateTimeSharedMemoryItem_run ch v w) as (item & Hset & Hrun).
  cbv zeta in Hset, Hrun.
  set (e := entry ch (service w)) in *.
  set (c := SystemClockContextEntry.updateCount e) in *.
  eexists. split; [exact Hrun |].
  cbn [service trace]. rewrite entry_with_entry, entry_with_entry_other.
  unfold current_slot, other_slot.
  cbn [SystemClockContextEntry.updateCount SystemClockContextEntry.context].
  rewrite land_to_u32_1 in Hset.
  rewrite !land_1_mod. fold c.
  change (to_u32 (c + 1)) with ((c + 1) mod 2 ^ 32).
  assert (Hpar : ((c + 1) mod 2 ^ 32) mod 2 = (c + 1) mod 2).
  { apply Z.mod_mod_divide. exists (2 ^ 31). reflexivity. }
  assert (Hpar' : ((c + 1) mod 2 ^ 32 + 1) mod 2 = c mod 2).
  { rewrite <- Zplus_mod_idemp_l, Hpar, Zplus_mod_idemp_l.
    replace (c + 1 + 1) with (c + 1 * 2) by lia. apply Z.mod_add. lia. }
  rewrite Hpar, Hpar'.
  pose proof (Z.div_mod c 2 ltac:(lia)) as Hc.
  pose proof (Z.div_mod (c + 1) 2 ltac:(lia)) as Hc1.
  pose proof (Z.mod_pos_bound c 2 ltac:(lia)) as Hb.
  pose proof (Z.mod_pos_bound (c + 1) 2 ltac:(lia)) as Hb1.
  split; [reflexivity |].
  assert (Hcase : (c + 1) mod 2 = 0 /\ c mod 2 = 1 \/ (c + 1) mod 2 = 1 /\ c mod 2 = 0) by lia.
  unfold Array2.set in Hset. unfold Array2.get.
  split; [| split; [| split; [reflexivity | split; [| split]]]].
  - destruct Hcase as [[H1 H0] | [H1 H0]]; rewrite H1 in *; cbn in Hset |- *;
      injection Hset as <-; reflexivity.
  - destruct Hcase as [[H1 H0] | [H1 H0]]; rewrite H1, H0 in *; cbn in Hset |- *;
      injection Hset as <-; reflexivity.
  - destruct ch; reflexivity.
  - destruct ch; reflexivity.
  - unfold signals, store_events. cbn [trace]. rewrite filter_app. cbn.
    apply app_nil_r.
Qed.

(** X10: after a run of publishes into one channel the counter has advanced
    by their number modulo 2^32, the slot that the parity of the counter
    selects holds the value published last, and the other slot holds the
    value published before it (after a single publish, the value that was
    current before); the other channel, the flag and the rest of the service
    are untouched, and nothing is thrown. *)
Theorem publish_all_slots :
  forall (ch : Channel) (vs : list SystemClockContext.t) (w : World),
    let e := entry ch (service w) in
    exists w',
      publish_all ch vs w = (Normal tt, w')
      /\ entry (other_channel ch) (service w') = entry (other_channel ch) (service w)
      /\ without_memory (service w') = without_memory (service w)
      /\ TimeSharedMemoryLayout.automaticCorrectionEnabledEntry
           (TimeService.timeSharedMemory (service w'))
         = TimeSharedMemoryLayout.automaticCorrectionEnabledEntry
             (TimeService.timeSharedMemory (service w))
      /\ match rev vs with
         | [] => entry ch (service w') = e
         | last :: before =>
             SystemClockContextEntry.updateCount (entry ch (service w'))
             = (SystemClockContextEntry.updateCount e + Z.of_nat (List.length vs)) mod 2 ^ 32
             /\ current_slot (entry ch (service w')) = Some last
             /\ other_slot (entry ch (service w'))
                = match before with
                  | previous :: _ => Some previous
                  | [] => current_slot e
                  end
         end.
Proof.
  intros ch vs. induction vs as [| v vs IH]; intros w; cbv zeta.
  - exists w. repeat split.
  - destruct (UpdateTimeSharedMemoryItem_slots ch v w)
      as (w1 & Hrun1 & Hcount1 & Hcur1 & Hother1 & Hch1 & Hrest1 & Hflag1 & _).
    cbv zeta in Hcount1, Hother1.
    destruct (IH w1) as (w' & Hrun & Hch & Hrest & Hflag & Hslots). cbv zeta in Hslots.
    exists w'. cbn [publish_all]. unfold bind at 1. rewrite Hrun1.
    split; [exact Hrun |]. split; [rewrite Hch; exact Hch1 |].
    split; [rewrite Hrest; exact Hrest1 |].
    split; [rewrite Hflag; exact Hflag1 |].
    cbn [rev List.length]. destruct (rev vs) as [| last before] eqn:Hrev.
    + cbn [app]. rewrite Hslots.
      assert (Hnil : vs = []).
      { apply (f_equal (@rev _)) in Hrev. rewrite rev_involutive in Hrev. exact Hrev. }
      subst vs. cbn [List.length]. split; [exact Hcount1 |]. split; assumption.
    + cbn [app]. destruct Hslots as (Hcount & Hcur & Hother).
      split; [| split; [exact Hcur |]].
      * rewrite Hcount, Hcount1, Zplus_mod_idemp_l. f_equal. lia.
      * destruct before as [| previous before']; cbn [app]; [| exact Hother].
        rewrite Hother. exact Hcur1.
Qed.

(** ** Context writers over many updates *)

Lemma writer_with_writer_other wr wr' v s :
  wr' <> wr -> writer wr' (with_writer wr v s) = writer wr' s.
Proof. intros H. destruct wr, wr'; try congruence; reflexivity. Qed.

Lemma entry_with_writer ch wr v s : entry ch (with_writer wr v s) = entry ch s.
Proof. destruct ch, wr; reflexivity. Qed.

Lemma writer_without_memory wr s s' :
  without_memory s' = without_memory s -> writer wr s' = writer wr s.
Proof.
  intros H. destruct s, s'. cbn in H. injection H as -> -> -> -> -> -> -> -> ->.
  destruct wr; reflexivity.
Qed.

Lemma setup_of_without_memory s s' :
  without_memory s' = without_memory s ->
  TimeSharedMemoryLayout.automaticCorrectionEnabledEntry (TimeService.timeSharedMemory s')
  = TimeSharedMemoryLayout.automaticCorrectionEnabledEntry (TimeService.timeSharedMemory s) ->
  setup_of s' = setup_of s.
Proof.
  intros H Hflag. destruct s, s'. cbn in H. injection H as -> -> -> -> -> -> -> -> ->.
  unfold setup_of. cbn in Hflag |- *. rewrite Hflag. reflexivity.
Qed.

(** What one [UpdateContext] leaves behind, whether it returns or reaches the
    end of its body. *)
Lemma UpdateContext_effect wr v w :
  exists o w',
    UpdateContext wr v w = (o, w')
    /\ (forall e, o <> Thrown e)
    /\ setup_of (service w') = setup_of (service w)
    /\ SystemClockContextUpdateCallback.context (writer wr (service w')) = Some v
    /\ (forall wr', wr' <> wr -> writer wr' (service w') = writer wr' (service w))
    /\ (forall ch, channel_of wr <> Some ch -> entry ch (service w') = entry ch (service w))
    /\ (forall ch, channel_of wr = Some ch ->
                   if already_stored wr v w
                   then entry ch (service w') = entry ch (service w)
                   else current_slot (entry ch (service w')) = Some v)
    /\ signals w' = signals w ++ (if already_stored wr v w then [] else signal_events wr w).
Proof.
  destruct (already_stored wr v w) eqn:Hdup.
  - exists (Normal Result.Success), w. split.
    + destruct wr; cbn [UpdateContext];
        unfold LocalSystemClockContextWriter_UpdateContext,
          NetworkSystemClockContextWriter_UpdateContext,
          EphemeralNetworkSystemClockContextWriter_UpdateContext;
        unfold bind at 1; rewrite UpdateBaseContext_run, Hdup; reflexivity.
    + split; [discriminate |].
      split; [reflexivity |]. split; [apply already_stored_iff; exact Hdup |].
      rewrite app_nil_r. repeat split.
  - set (w0 := with_service
                 (fun s => with_writer wr
                    (SystemClockContextUpdateCallback.with_context (Some v) (writer wr s)) s)
                 w).
    assert (Hsetup0 : setup_of (service w0) = setup_of (service w))
      by (destruct wr; reflexivity).
    assert (Hctx0 : SystemClockContextUpdateCallback.context (writer wr (service w0)) = Some v).
    { unfold w0. cbn. rewrite writer_with_writer. reflexivity. }
    assert (Hother0 : forall wr', wr' <> wr -> writer wr' (service w0) = writer wr' (service w)).
    { intros wr' H. unfold w0. cbn. apply writer_with_writer_other. exact H. }
    assert (Hentry0 : forall ch, entry ch (service w0) = entry ch (service w)).
    { intros ch. unfold w0. cbn. apply entry_with_writer. }
    assert (Hsig0 : signal_events wr w0 = signal_events wr w).
    { unfold signal_events, w0. cbn. rewrite writer_with_writer. reflexivity. }
    assert (Hpublish :
      forall ch, channel_of wr = Some ch ->
        exists o w',
          (UpdateTimeSharedMemoryItem ch v ;; SignalOperationEvent wr ;; missing_return) w0
          = (o, w')
          /\ (forall e, o <> Thrown e)
          /\ setup_of (service w') = setup_of (service w)
          /\ SystemClockContextUpdateCallback.context (writer wr (service w')) = Some v
          /\ (forall wr', wr' <> wr -> writer wr' (service w') = writer wr' (service w))
          /\ (forall ch', channel_of wr <> Some ch' ->
                          entry ch' (service w') = entry ch' (service w))
          /\ current_slot (entry ch (service w')) = Some v
          /\ signals w' = signals w ++ signal_events wr w).
    { intros ch Hch.
      destruct (UpdateTimeSharedMemoryItem_slots ch v w0)
        as (w1 & Hrun1 & _ & Hcur & _ & Hoth & Hrest & Hflag & Hsig).
      assert (Hwr1 : forall wr', writer wr' (service w1) = writer wr' (service w0))
        by (intros wr'; apply writer_without_memory; exact Hrest).
      unfold bind at 1. rewrite Hrun1.
      unfold bind at 1. rewrite SignalOperationEvent_run. unfold missing_return, undefined.
      eexists. eexists. split; [reflexivity |]. cbn [service logged].
      split; [discriminate |].
      split; [rewrite <- Hsetup0; apply setup_of_without_memory; assumption |].
      split; [rewrite Hwr1; exact Hctx0 |].
      split; [intros wr' H; rewrite Hwr1; apply Hother0; exact H |].
      split.
      { intros ch' Hch'.
        assert (ch' = other_channel ch)
          by (destruct wr, ch, ch'; cbn in *; congruence).
        subst ch'. rewrite Hoth. apply Hentry0. }
      split; [exact Hcur |].
      unfold signals in *. cbn [trace logged]. rewrite filter_app, Hsig.
      f_equal. unfold signal_events. rewrite Hwr1.
      fold (signal_events wr w0). rewrite Hsig0. unfold signal_events.
      induction (SystemClockContextUpdateCallback.operationEventList (writer wr (service w)))
        as [| ev l IHl]; [reflexivity | cbn; f_equal; exact IHl]. }
    destruct wr; cbn [UpdateContext];
      unfold LocalSystemClockContextWriter_UpdateContext,
        NetworkSystemClockContextWriter_UpdateContext,
        EphemeralNetworkSystemClockContextWriter_UpdateContext,
        UpdateLocalSystemClockContext, UpdateNetworkSystemClockContext;
      unfold bind at 1; rewrite UpdateBaseContext_run, Hdup; fold w0; cbn [negb].
    + destruct (Hpublish LocalChannel eq_refl)
        as (o & w' & Hrun & Hno & Hs & Hc & Ho & He & Hcur & Hsig).
      exists o, w'. split; [exact Hrun |]. split; [exact Hno |].
      split; [exact Hs |]. split; [exact Hc |].
      split; [exact Ho |]. split; [exact He |]. split; [| exact Hsig].
      intros ch Hch. injection Hch as <-. exact Hcur.
    + destruct (Hpublish NetworkChannel eq_refl)
        as (o & w' & Hrun & Hno & Hs & Hc & Ho & He & Hcur & Hsig).
      exists o, w'. split; [exact Hrun |]. split; [exact Hno |].
      split; [exact Hs |]. split; [exact Hc |].
      split; [exact Ho |]. split; [exact He |]. split; [| exact Hsig].
      intros ch Hch. injection Hch as <-. exact Hcur.
    + unfold bind at 1. rewrite SignalOperationEvent_run. unfold missing_return, undefined.
      eexists. eexists. split; [reflexivity |]. cbn [service logged].
      split; [discriminate |].
      split; [exact Hsetup0 |]. split; [exact Hctx0 |]. split; [exact Hother0 |].
      split; [intros ch _; apply Hentry0 |]. split; [intros ch Hch; discriminate |].
      unfold signals. cbn [trace logged]. rewrite filter_app. f_equal.
      rewrite Hsig0. unfold signal_events.
      induction (SystemClockContextUpdateCallback.operationEventList
                   (writer EphemeralWriter (service w)))
        as [| ev l IHl]; [reflexivity | cbn; f_equal; exact IHl].
Qed.

(** X11: every [UpdateContext] call keeps each writer that owns a channel in
    step with it: if, before the call, the context each such writer holds is
    the one in the current slot of its channel, then this is so again at the
    end of the call, whether the call was suppressed as a duplicate and
    returned, or stored, published and signalled and then reached the end
    of its body.  The constructed service starts in step. *)
Theorem writers_stay_in_sync :
  in_sync TimeService.new
  /\ forall (wr : WriterRef) (v : SystemClockContext.t) (w : World),
       in_sync (service w) ->
       exists o w', UpdateContext wr v w = (o, w') /\ in_sync (service w').
Proof.
  split.
  - intros wr ch v _ Hctx. destruct wr; discriminate.
  - intros wr v w Hsync.
    destruct (UpdateContext_effect wr v w)
      as (o & w1 & Hrun & _ & _ & Hctx & Hothers & Hentries & Hslot & _).
    exists o, w1. split; [exact Hrun |].
    intros wr0 ch0 v0 Hch0 Hctx0.
    assert (Hdec : wr0 = wr \/ wr0 <> wr)
      by (destruct wr0, wr; (left; reflexivity) || (right; discriminate)).
    destruct Hdec as [-> | Hneq].
    + rewrite Hctx in Hctx0. injection Hctx0 as <-.
      specialize (Hslot ch0 Hch0).
      destruct (already_stored wr v w) eqn:Hdup; [| exact Hslot].
      rewrite Hslot. apply (Hsync wr ch0 v Hch0).
      apply already_stored_iff. exact Hdup.
    + rewrite (Hothers wr0 Hneq) in Hctx0.
      rewrite Hentries.
      * apply (Hsync wr0 ch0 v0 Hch0 Hctx0).
      * intros Hch. apply Hneq.
        destruct wr0, wr; cbn in Hch0, Hch; congruence.
Qed.

Lemma writers_stay_in_sync_witness :
  exists o w',
    UpdateContext LocalWriter network_context (boot backward_source) = (o, w')
    /\ in_sync (service w').
Proof.
  apply (proj2 writers_stay_in_sync LocalWriter network_context (boot backward_source)).
  exact (proj1 writers_stay_in_sync).
Defined.

(** X12: on a writer that already holds a context, any number of
    [UpdateContext] calls in a row with that context all return success and
    leave the world exactly as it was: nothing is stored, published or
    signalled. *)
Theorem repeated_UpdateContext :
  forall (n : nat) (wr : WriterRef) (v : SystemClockContext.t) (w : World),
    already_stored wr v w = true ->
    calls (UpdateContext wr v) n w = (Normal (repeat Result.Success n), w).
Proof.
  intros n wr v w Hdup. induction n as [| n IH]; cbn [calls repeat]; [reflexivity |].
  destruct (UpdateContext_run wr v w) as (o & w' & Hrun & Hsame & _).
  destruct (Hsame Hdup) as [-> ->].
  unfold bind at 1. rewrite Hrun. unfold bind at 1. rewrite IH. reflexivity.
Qed.

Lemma repeated_UpdateContext_witness :
  calls (UpdateContext LocalWriter network_context) 3 republished_world
  = (Normal (repeat Result.Success 3), republished_world).
Proof.
  apply (repeated_UpdateContext 3 LocalWriter network_context republished_world).
  reflexivity.
Defined.



(** ** What no operation changes *)

Lemma keeps_setup_refl w : keeps_setup w w.
Proof. split; reflexivity. Qed.

Lemma keeps_setup_trans w1 w2 w3 :
  keeps_setup w1 w2 -> keeps_setup w2 w3 -> keeps_setup w1 w3.
Proof.
  intros [Hs1 Hq1] [Hs2 Hq2]. split.
  - rewrite Hs2. exact Hs1.
  - intros Hno. rewrite Hq2, Hq1; try assumption; try reflexivity.
    unfold no_subscribers in *. rewrite Hs1. exact Hno.
Qed.

Lemma keeps_setup_logged es w :
  filter is_signal es = [] -> keeps_setup w (logged es w).
Proof.
  intros Hes. split; [reflexivity |]. intros _.
  unfold signals. cbn [trace logged]. rewrite filter_app, Hes. apply app_nil_r.
Qed.

Lemma keeps_setup_after_read c w : keeps_setup w (after_read c w).
Proof.
  split.
  - destruct c; unfold after_read; cbn [service]; [| reflexivity].
    unfold ratchet. destruct (TimeSpanType.gt _ _); reflexivity.
  - intros _. unfold signals. rewrite trace_after_read, filter_app. apply app_nil_r.
Qed.

Lemma keeps_setup_with_context c v w :
  keeps_setup w
    (with_service
       (fun s => with_systemClock c (SystemClockCore.with_context v (systemClock c s)) s) w).
Proof.
  split; [destruct c; reflexivity |]. intros _. reflexivity.
Qed.

Ltac chain :=
  repeat first
    [ apply keeps_setup_refl
    | apply keeps_setup_after_read
    | apply keeps_setup_with_context
    | (apply keeps_setup_logged; reflexivity)
    | (eapply keeps_setup_trans; [| first
         [ apply keeps_setup_after_read
         | apply keeps_setup_with_context
         | (apply keeps_setup_logged; reflexivity) ]]) ].

Lemma keeps_setup_after_user_GetClockContext w :
  keeps_setup w (after_user_GetClockContext w).
Proof.
  unfold after_user_GetClockContext.
  destruct (StandardUserSystemClockCore.automaticCorrectionEnabled _);
    [destruct (UUID.Valid _) |]; chain.
Qed.

Lemma GetClockContext_keeps_setup c w :
  exists ctx w', GetClockContext c w = (Normal (Value ctx), w') /\ keeps_setup w w'.
Proof.
  destruct c; cbn [GetClockContext];
    try (rewrite SystemClockCore_GetClockContext_run; eexists; eexists;
         split; [reflexivity | chain]).
  rewrite StandardUserSystemClockCore_GetClockContext_world.
  eexists. eexists. split; [reflexivity |]. apply keeps_setup_after_user_GetClockContext.
Qed.

Lemma IsClockSetup_keeps_setup c w :
  exists b w', IsClockSetup c w = (Normal b, w') /\ keeps_setup w w'.
Proof.
  destruct (IsClockSetup_run c w) as (ctx & w1 & Hctx & _ & _ & Hrun).
  destruct (GetClockContext_keeps_setup c (logged [ECall c mIsClockSetup] w))
    as (ctx' & w1' & Hctx' & Hkeep).
  rewrite Hctx in Hctx'. injection Hctx' as _ <-.
  rewrite Hrun. eexists. eexists. split; [reflexivity |].
  eapply keeps_setup_trans; [| apply keeps_setup_after_read].
  eapply keeps_setup_trans; [| exact Hkeep].
  apply keeps_setup_logged. reflexivity.
Qed.

Lemma UpdateTimeSharedMemoryItem_keeps_setup ch v w :
  exists w', UpdateTimeSharedMemoryItem ch v w = (Normal tt, w') /\ keeps_setup w w'.
Proof.
  destruct (UpdateTimeSharedMemoryItem_slots ch v w)
    as (w' & Hrun & _ & _ & _ & _ & Hrest & Hflag & Hsig).
  exists w'. split; [exact Hrun |]. split.
  - apply setup_of_without_memory; assumption.
  - intros _. exact Hsig.
Qed.

Lemma UpdateContext_keeps_setup wr v w :
  exists o w', UpdateContext wr v w = (o, w') /\ (forall e, o <> Thrown e) /\ keeps_setup w w'.
Proof.
  destruct (UpdateContext_effect wr v w)
    as (o & w' & Hrun & Hnothrow & Hsetup & _ & _ & _ & _ & Hsig).
  exists o, w'. split; [exact Hrun |]. split; [exact Hnothrow |]. split; [exact Hsetup |].
  intros Hno. rewrite Hsig.
  destruct (already_stored wr v w); [apply app_nil_r |].
  unfold no_subscribers, setup_of in Hno. cbn [setup_subscribers] in Hno.
  injection Hno as Hl Hn He.
  unfold signal_events. destruct wr; cbn [writer]; rewrite ?Hl, ?Hn, ?He; apply app_nil_r.
Qed.

(** One operation: it does not throw, it keeps the setup, and it returns
    unless it is an [UpdateContext]. *)
Lemma run_op_keeps_setup o w :
  exists out w',
    run_op o w = (out, w')
    /\ (forall e, out <> Thrown e)
    /\ keeps_setup w w'
    /\ (is_update o = false -> out = Normal tt).
Proof.
  assert (Hdone : forall w', run_op o w = (Normal tt, w') -> keeps_setup w w' ->
                    exists out w'',
                      run_op o w = (out, w'')
                      /\ (forall e, out <> Thrown e)
                      /\ keeps_setup w w''
                      /\ (is_update o = false -> out = Normal tt)).
  { intros w' Hrun Hkeep. exists (Normal tt), w'.
    split; [exact Hrun |]. split; [discriminate |]. split; [exact Hkeep | reflexivity]. }
  destruct o as [c | c | c | c | c t | c | c t | c | c | c | c | c p | v | v | wr v];
    cbn [run_op] in *.
  - eapply Hdone; [unfold bind; rewrite GetTimePoint_run; reflexivity | chain].
  - destruct c; cbn [GetRawTimePoint] in *.
    + eapply Hdone;
        [unfold bind; rewrite StandardSteadyClockCore_GetRawTimePoint_run; reflexivity | chain].
    + eapply Hdone;
        [unfold SteadyClockCore_GetRawTimePoint, bind; rewrite GetTimePoint_run; reflexivity
        | chain].
  - eapply Hdone; [unfold bind; rewrite GetCurrentTimePoint_run; reflexivity | chain].
  - destruct c; (eapply Hdone; [reflexivity | chain]).
  - destruct c; (eapply Hdone; [reflexivity | split; reflexivity]).
  - destruct c; (eapply Hdone; [reflexivity | chain]).
  - destruct c; (eapply Hdone; [reflexivity | split; reflexivity]).
  - eapply Hdone; [reflexivity | chain].
  - eapply Hdone; [reflexivity | chain].
  - destruct (IsClockSetup_keeps_setup c w) as (b & w' & Hrun & Hkeep).
    eapply Hdone; [unfold bind; rewrite Hrun; reflexivity | exact Hkeep].
  - destruct (GetClockContext_keeps_setup c w) as (ctx & w' & Hrun & Hkeep).
    eapply Hdone; [unfold bind; rewrite Hrun; reflexivity | exact Hkeep].
  - destruct c; cbn [SetClockContext] in *;
      try (eapply Hdone;
           [unfold bind; rewrite SystemClockCore_SetClockContext_run; reflexivity | chain]).
    eapply Hdone; [reflexivity |]. apply (keeps_setup_logged [_]). reflexivity.
  - destruct (UpdateTimeSharedMemoryItem_keeps_setup LocalChannel v w) as (w' & Hrun & Hkeep).
    eapply Hdone; eassumption.
  - destruct (UpdateTimeSharedMemoryItem_keeps_setup NetworkChannel v w) as (w' & Hrun & Hkeep).
    eapply Hdone; eassumption.
  - clear Hdone.
    destruct (UpdateContext_keeps_setup wr v w) as (o & w' & Hrun & Hnothrow & Hkeep).
    unfold bind. rewrite Hrun.
    destruct o as [r | e | e].
    + eexists. eexists. split; [reflexivity |]. split; [discriminate |].
      split; [exact Hkeep | discriminate].
    + exfalso. apply (Hnothrow e). reflexivity.
    + eexists. eexists. split; [reflexivity |]. split; [discriminate |].
      split; [exact Hkeep | discriminate].
Qed.

Lemma run_ops_keeps_setup os :
  forall w,
    exists out w',
      run_ops os w = (out, w')
      /\ (forall e, out <> Thrown e)
      /\ keeps_setup w w'
      /\ (forallb (fun o => negb (is_update o)) os = true -> out = Normal tt).
Proof.
  induction os as [| o os IH]; intros w.
  - exists (Normal tt), w.
    split; [reflexivity |]. split; [discriminate |].
    split; [apply keeps_setup_refl | reflexivity].
  - destruct (run_op_keeps_setup o w) as (out1 & w1 & Hrun1 & Hnothrow1 & Hkeep1 & Hret1).
    cbn [run_ops forallb]. unfold bind at 1. rewrite Hrun1.
    destruct out1 as [[] | e | e].
    + destruct (IH w1) as (out & w' & Hrun & Hnothrow & Hkeep & Hret).
      exists out, w'. split; [exact Hrun |]. split; [exact Hnothrow |].
      split; [eapply keeps_setup_trans; eassumption |].
      intros Hall. apply andb_true_iff in Hall. apply Hret. apply Hall.
    + exfalso. apply (Hnothrow1 e). reflexivity.
    + eexists. eexists. split; [reflexivity |]. split; [discriminate |].
      split; [exact Hkeep1 |].
      intros Hall. apply andb_true_iff in Hall. destruct Hall as [Ho _].
      apply negb_true_iff in Ho. specialize (Hret1 Ho). discriminate.
Qed.

(** X13: no sequence of public operations of the steady clocks, the system
    clocks, the shared memory and the writers throws, and however far it
    runs it does not change the setup of the service: the identifiers and
    the [rtcOffset] of the steady clocks, the steady clock each system clock
    refers to, the [initialised] flags, the accuracy threshold, the
    correction flag and time of the user clock, the flag channel of the
    shared memory and the subscribers of the writers.  A sequence without
    [UpdateContext] calls runs to its end. *)
Theorem operations_keep_setup :
  forall (os : list Op) (w : World),
    exists out w',
      run_ops os w = (out, w')
      /\ (forall e, out <> Thrown e)
      /\ setup_of (service w') = setup_of (service w)
      /\ (forallb (fun o => negb (is_update o)) os = true -> out = Normal tt).
Proof.
  intros os w.
  destruct (run_ops_keeps_setup os w) as (out & w' & Hrun & Hnothrow & [Hsetup _] & Hret).
  exists out, w'. repeat split; assumption.
Qed.

Lemma operations_keep_setup_witness :
  exists w',
    run_ops [OpGetTimePoint StandardSteadyClock;
             OpSetClockContext NetworkSystemClock network_context;
             OpIsClockSetup UserSystemClock;
             OpUpdateLocalSystemClockContext network_context] (boot backward_source)
    = (Normal tt, w')
    /\ setup_of (service w') = setup_of (service (boot backward_source)).
Proof.
  destruct (operations_keep_setup
              [OpGetTimePoint StandardSteadyClock;
               OpSetClockContext NetworkSystemClock network_context;
               OpIsClockSetup UserSystemClock;
               OpUpdateLocalSystemClockContext network_context] (boot backward_source))
    as (out & w' & Hrun & _ & Hsetup & Hret).
  rewrite (Hret eq_refl) in Hrun. exists w'. split; [exact Hrun | exact Hsetup].
Defined.

Lemma IsClockSetup_by_setup c w :
  fst (IsClockSetup c w)
  = Normal (UUID.Valid (steadyClock_id (steadyClock_of c (service w)) (service w))).
Proof.
  destruct (IsClockSetup_run c w) as (ctx & w1 & _ & Hid & Hsc & Hrun).
  rewrite Hrun. cbn [fst]. rewrite Hsc, Hid. reflexivity.
Qed.

Lemma IsClockSetup_same_setup c w w' :
  setup_of (service w') = setup_of (service w) ->
  fst (IsClockSetup c w') = fst (IsClockSetup c w).
Proof.
  intros H. rewrite !IsClockSetup_by_setup.
  pose proof (f_equal setup_ids H) as Hids.
  pose proof (f_equal setup_steadyClocks H) as Hscs.
  unfold setup_of in Hids, Hscs. cbn [setup_ids setup_steadyClocks] in Hids, Hscs.
  injection Hids as Hstd Htick. injection Hscs as Hl Hn Hu He.
  assert (Hid : forall sc, steadyClock_id sc (service w') = steadyClock_id sc (service w))
    by (intros sc; destruct sc; assumption).
  destruct c; rewrite ?Hl, ?Hn, ?Hu, ?He, Hid; reflexivity.
Qed.

(** X14: what [IsClockSetup] of a system clock answers is fixed for the life
    of the service: after any sequence of public operations that has run to
    its end it answers what it answered before.  On the constructed service
    this answer is false for each of the four clocks, whatever the source
    and whatever has been run. *)
Theorem IsClockSetup_never_changes :
  (forall (os : list Op) (w w' : World) (c : SystemClockRef),
     run_ops os w = (Normal tt, w') ->
     fst (IsClockSetup c w') = fst (IsClockSetup c w))
  /\ (forall (os : list Op) (source : nat -> Z) (w' : World) (c : SystemClockRef),
        run_ops os (boot source) = (Normal tt, w') ->
        fst (IsClockSetup c w') = Normal false).
Proof.
  assert (Hsame : forall os w w' c,
            run_ops os w = (Normal tt, w') ->
            fst (IsClockSetup c w') = fst (IsClockSetup c w)).
  { intros os w w' c Hrun.
    destruct (run_ops_keeps_setup os w) as (out & w'' & Hrun' & _ & [Hsetup _] & _).
    rewrite Hrun in Hrun'. injection Hrun' as _ <-.
    apply IsClockSetup_same_setup. exact Hsetup. }
  split; [exact Hsame |].
  intros os source w' c Hrun.
  rewrite (Hsame os (boot source) w' c Hrun).
  rewrite IsClockSetup_by_setup. destruct c; reflexivity.
Qed.

Lemma IsClockSetup_never_changes_witness :
  fst (IsClockSetup NetworkSystemClock
         (snd (run_ops [OpSetClockContext NetworkSystemClock network_context;
                        OpGetClockContext UserSystemClock;
                        OpUpdateNetworkSystemClockContext network_context]
                 (boot backward_source))))
  = Normal false.
Proof.
  apply (proj2 IsClockSetup_never_changes
           [OpSetClockContext NetworkSystemClock network_context;
            OpGetClockContext UserSystemClock;
            OpUpdateNetworkSystemClockContext network_context] backward_source).
  vm_compute. reflexivity.
Defined.

(** X15: as long as no writer has a subscriber, and the constructed service
    has none and no operation adds one, no sequence of public operations
    signals a kernel event, however far it runs; and when the sequence has
    run to its end on the constructed service, [GetClockContext] of the user
    clock returns the context of the local clock, automatic correction
    staying off. *)
Theorem constructed_service_never_signals :
  forall (os : list Op) (source : nat -> Z),
    exists out w',
      run_ops os (boot source) = (out, w')
      /\ signals w' = []
      /\ no_subscribers (service w')
      /\ (out = Normal tt ->
          fst (GetClockContext UserSystemClock w')
          = Normal (Value (stored_context LocalSystemClock w'))).
Proof.
  intros os source.
  destruct (run_ops_keeps_setup os (boot source))
    as (out & w' & Hrun & _ & [Hsetup Hquiet] & _).
  exists out, w'. split; [exact Hrun |].
  split; [apply Hquiet; reflexivity |].
  split; [unfold no_subscribers; rewrite Hsetup; reflexivity |].
  intros _.
  cbn [GetClockContext]. rewrite StandardUserSystemClockCore_GetClockContext_world.
  cbn [fst].
  pose proof (f_equal setup_correction Hsetup) as Hcorr.
  unfold setup_of in Hcorr. cbn [setup_correction] in Hcorr.
  injection Hcorr as Hen _. rewrite Hen. reflexivity.
Qed.

Lemma constructed_service_never_signals_witness :
  exists w',
    run_ops [OpSetClockContext NetworkSystemClock network_context;
             OpIsClockSetup UserSystemClock] (boot backward_source)
    = (Normal tt, w')
    /\ signals w' = []
    /\ fst (GetClockContext UserSystemClock w')
       = Normal (Value (stored_context LocalSystemClock w')).
Proof.
  destruct (constructed_service_never_signals
              [OpSetClockContext NetworkSystemClock network_context;
               OpIsClockSetup UserSystemClock] backward_source)
    as (out & w' & Hrun & Hquiet & _ & Hctx).
  destruct (run_ops_keeps_setup
              [OpSetClockContext NetworkSystemClock network_context;
               OpIsClockSetup UserSystemClock] (boot backward_source))
    as (out2 & w2 & Hrun2 & _ & _ & Hret).
  rewrite Hrun in Hrun2. injection Hrun2 as <- <-.
  specialize (Hret eq_refl). subst out.
  exists w'. split; [exact Hrun |]. split; [exact Hquiet |]. apply Hctx. reflexivity.
Defined.

(** ** Durations *)

(** X16: a number of seconds that is not negative survives the conversion to
    a duration and back, as long as its count of nanoseconds fits 64 bits.  A
    negative one does not: the division in [Seconds] is unsigned, and [s]
    comes back as [s + 18446744073].  The seconds of a duration are never
    negative, and a duration that is not negative is cut down to whole
    seconds by the conversion to seconds and back. *)
Theorem Seconds_FromSeconds_round_trip :
  (forall s : Z,
     0 <= s <= 9223372036 ->
     TimeSpanType.Seconds (TimeSpanType.FromSeconds s) = s)
  /\ (forall s : Z,
        - 9223372036 <= s < 0 ->
        TimeSpanType.Seconds (TimeSpanType.FromSeconds s) = s + 18446744073)
  /\ (forall x : TimeSpanType.t, 0 <= TimeSpanType.Seconds x <= 18446744073)
  /\ (forall x : TimeSpanType.t,
        0 <= TimeSpanType.ns x < 2 ^ 63 ->
        let y := TimeSpanType.ns (TimeSpanType.FromSeconds (TimeSpanType.Seconds x)) in
        y = TimeSpanType.ns x / constant.NsInSecond * constant.NsInSecond
        /\ 0 <= TimeSpanType.ns x - y < constant.NsInSecond).
Proof.
  split; [| split; [| split]].
  - intros s Hs.
    assert (Hfrom : TimeSpanType.ns (TimeSpanType.FromSeconds s) = s * 1000000000).
    { unfold TimeSpanType.FromSeconds, constant.NsInSecond. cbn [TimeSpanType.ns].
      apply to_i64_small. unfold in_i64. change (2 ^ 63) with 9223372036854775808. lia. }
    rewrite Seconds_nonneg
      by (rewrite Hfrom; change (2 ^ 63) with 9223372036854775808; lia).
    rewrite Hfrom. unfold constant.NsInSecond. apply Z.div_mul. lia.
  - intros s Hs.
    assert (Hfrom : TimeSpanType.ns (TimeSpanType.FromSeconds s) = s * 1000000000).
    { unfold TimeSpanType.FromSeconds, constant.NsInSecond. cbn [TimeSpanType.ns].
      apply to_i64_small. unfold in_i64. change (2 ^ 63) with 9223372036854775808. lia. }
    rewrite Seconds_negative
      by (rewrite Hfrom; change (2 ^ 63) with 9223372036854775808; lia).
    rewrite Hfrom. unfold constant.NsInSecond.
    change (2 ^ 64) with 18446744073709551616.
    symmetry. apply (Z.div_unique _ _ _ 709551616); lia.
  - intros x. apply Seconds_range.
  - intros x Hx y. subst y.
    rewrite (Seconds_nonneg x Hx).
    unfold TimeSpanType.FromSeconds, constant.NsInSecond. cbn [TimeSpanType.ns].
    change (2 ^ 63) with 9223372036854775808 in Hx.
    pose proof (Z.div_mod (TimeSpanType.ns x) 1000000000 ltac:(lia)) as Hd.
    pose proof (Z.mod_pos_bound (TimeSpanType.ns x) 1000000000 ltac:(lia)) as Hm.
    rewrite to_i64_small by (unfold in_i64; change (2 ^ 63) with 9223372036854775808; lia).
    lia.
Qed.

Lemma Seconds_FromSeconds_round_trip_witness :
  TimeSpanType.Seconds (TimeSpanType.FromSeconds 100) = 100
  /\ TimeSpanType.Seconds (TimeSpanType.FromSeconds (-1)) = 18446744072.
Proof.
  split.
  - apply (proj1 Seconds_FromSeconds_round_trip 100). lia.
  - apply (proj1 (proj2 Seconds_FromSeconds_round_trip) (-1)). lia.
Defined.
